(** * plone.app.blocks: the transform pipeline of [transform.py]

    A shallow embedding of the five transforms of
    [src/plone/app/blocks/transform.py] ([DisableParsing], [ParseXML],
    [MergePanels], [IncludeTiles], [ESIRender]) together with the Python
    primitives they call, and the properties of the pipeline that the
    specification states about them. *)

From Stdlib Require Import Strings.Byte Strings.Ascii Strings.String NArith.
From stdpp Require Import base option list strings gmap.

Set Default Proof Using "Type".

(** ** Python values used by the transforms *)

(** [bytes]: a sequence of octets. *)
Abbreviation bytes := (list byte).

(** [str]: a sequence of Unicode code points. *)
Abbreviation text := (list N).

#[global] Instance byte_eq_dec : EqDecision byte := Byte.byte_eq_dec.

Module Py.

(** A bytes literal written as an ASCII string. *)
Definition b (s : string) : bytes := String.list_byte_of_string s.

(** [s.startswith(p)], on [bytes] and on [str] alike. *)
Fixpoint startswith {A} `{EqDecision A} (p s : list A) : bool :=
  match p, s with
  | [], _ => true
  | _ :: _, [] => false
  | a :: p', c :: s' => if decide (a = c) then startswith p' s' else false
  end.

(** [p in s]: [p] occurs in [s] as a contiguous block. *)
Fixpoint contains {A} `{EqDecision A} (p s : list A) : bool :=
  startswith p s ||
  match s with
  | [] => false
  | _ :: s' => contains p s'
  end.

(** [re.sub(pat, rep, s)] for a pattern that is a non-empty literal (no
    regular-expression metacharacter), which is what both calls of the
    source pass: the occurrences of [pat] are found from left to right
    without overlap, and each is replaced by [rep].  [skip] counts the
    bytes of a matched occurrence that are still to be consumed. *)
Fixpoint sub_from {A} `{EqDecision A} (pat rep : list A) (skip : nat) (s : list A) : list A :=
  match s with
  | [] => []
  | c :: s' =>
      match skip with
      | S k => sub_from pat rep k s'
      | O =>
          if startswith pat s
          then rep ++ sub_from pat rep (pred (length pat)) s'
          else c :: sub_from pat rep 0 s'
      end
  end.

Definition re_sub {A} `{EqDecision A} (pat rep s : list A) : list A :=
  sub_from pat rep 0 s.

(** [s.startswith(p)] and [p in s] on header values. *)
Definition str_startswith (p s : string) : bool := String.prefix p s.

Definition str_contains (p s : string) : bool :=
  contains (list_ascii_of_string p) (list_ascii_of_string s).

(** [s.lower()] on a header value (ASCII letters; no other character
    lowers to one of the letters of ["true"]). *)
Definition lower_ascii (c : ascii) : ascii :=
  let n := nat_of_ascii c in
  if (65 <=? n)%nat && (n <=? 90)%nat then ascii_of_nat (n + 32) else c.

Fixpoint lower (s : string) : string :=
  match s with
  | EmptyString => EmptyString
  | String c s' => String (lower_ascii c) (lower s')
  end.

End Py.

(** ** Text encodings *)

(** A stateless codec, as [str.encode] uses it: each code point either has
    an encoding or is not representable ([None]).  [utf-8], [ascii] and
    the charmap codecs are of this kind. *)
Record codec := Codec {
  codec_name : string;
  encode_char : N → option bytes
}.

(** [s.encode(enc)], error mode ["strict"]: [None] stands for the
    [UnicodeEncodeError] raised at the first code point without encoding. *)
Definition encode_strict (enc : codec) (s : text) : option bytes :=
  @concat byte <$> mapM (encode_char enc) s.

(** [s.encode(enc, "ignore")]: code points without encoding are skipped. *)
Definition encode_ignore (enc : codec) (s : text) : bytes :=
  concat (omap (encode_char enc) s).

Definition byte_of_N (n : N) : byte := default x00 (Byte.of_N n).

(** Python's [utf-8] codec on one code point; the surrogates
    U+D800..U+DFFF have no encoding. *)
Definition utf8_char (c : N) : option bytes :=
  (if c <? 0x80 then Some [byte_of_N c]
   else if c <? 0x800 then
     Some [byte_of_N (0xC0 + c / 64); byte_of_N (0x80 + c mod 64)]
   else if (0xD800 <=? c) && (c <=? 0xDFFF) then None
   else if c <? 0x10000 then
     Some [byte_of_N (0xE0 + c / 4096); byte_of_N (0x80 + (c / 64) mod 64);
           byte_of_N (0x80 + c mod 64)]
   else if c <? 0x110000 then
     Some [byte_of_N (0xF0 + c / 262144); byte_of_N (0x80 + (c / 4096) mod 64);
           byte_of_N (0x80 + (c / 64) mod 64); byte_of_N (0x80 + c mod 64)]
   else None)%N.

Definition utf8 : codec := Codec "utf-8" utf8_char.

(** Python's [ascii] codec. *)
Definition ascii_codec : codec :=
  Codec "ascii" (λ c, if (c <? 0x80)%N then Some [byte_of_N c] else None).

(** ** Exceptions *)

Inductive exc_class :=
| AttributeError
| TypeError
| ParseError          (* lxml.etree.ParseError *)
| XMLSyntaxError      (* lxml.etree.XMLSyntaxError, a ParseError *)
| ValueError
| UnicodeEncodeError  (* a ValueError *)
| LookupError
| ReferenceError
| RuntimeError.

#[global] Instance exc_class_eq_dec : EqDecision exc_class.
Proof. solve_decision. Defined.

Record exc := Exc { exc_cls : exc_class; exc_msg : string }.

#[global] Instance exc_eq_dec : EqDecision exc.
Proof. solve_decision. Defined.

(** [issubclass c d] for the classes above. *)
Definition issubclass (c d : exc_class) : bool :=
  bool_decide (c = d) ||
  match c, d with
  | XMLSyntaxError, ParseError => true
  | UnicodeEncodeError, ValueError => true
  | _, _ => false
  end.

(** [except (c1, ..., cn)] selects [e]. *)
Definition except_matches (classes : list exc_class) (e : exc) : bool :=
  existsb (issubclass (exc_cls e)) classes.

(** ** Chunks, iterables and results *)

(** An element of the iterable handed to a transform: [bytes], [str], or
    an object of another type, of which only the truth value matters. *)
Inductive item :=
| ItemBytes (b : bytes)
| ItemText (s : text)
| ItemOther (truth : bool).

#[global] Instance item_eq_dec : EqDecision item.
Proof. solve_decision. Defined.

(** [bool(item)]: empty [bytes] and [str] are false. *)
Definition truthy (i : item) : bool :=
  match i with
  | ItemBytes [] => false
  | ItemBytes (_ :: _) => true
  | ItemText [] => false
  | ItemText (_ :: _) => true
  | ItemOther t => t
  end.

(** References to [XMLSerializer] objects: the serializer is mutated in
    place by the stages, and the chain holds a reference to it. *)
Abbreviation loc := positive.

(** What the chain passes to [transformIterable]: a plain iterable of
    chunks or an [XMLSerializer]. *)
Inductive iterable :=
| Chunks (items : list item)
| Serializer (l : loc).

(** The result a transform receives and may replace: [bytes]
    ([transformBytes]), [str] ([transformUnicode]) or an iterable
    ([transformIterable]). *)
Inductive value :=
| Bytes (b : bytes)
| Text (s : text)
| Iter (it : iterable).

Abbreviation Parsed l := (Iter (Serializer l)).

#[global] Instance iterable_eq_dec : EqDecision iterable.
Proof. solve_decision. Defined.

#[global] Instance value_eq_dec : EqDecision value.
Proof. solve_decision. Defined.

(** [isinstance(result, XMLSerializer)]. *)
Definition is_XMLSerializer (it : iterable) : bool :=
  match it with
  | Serializer _ => true
  | Chunks _ => false
  end.

(** [Products.CMFPlone.utils.safe_bytes(value)], with its default
    encoding ["utf-8"]: text is encoded, anything else is returned as it
    is. *)
Definition safe_bytes (i : item) : exc + item :=
  match i with
  | ItemText s =>
      match encode_strict utf8 s with
      | Some b => inr (ItemBytes b)
      | None => inl (Exc UnicodeEncodeError "surrogates not allowed")
      end
  | _ => inr i
  end.

(** [re.sub(pat, rep, x)] with a bytes pattern: [x] must be bytes. *)
Definition py_re_sub (pat rep : bytes) (x : item) : exc + bytes :=
  match x with
  | ItemBytes s => inr (Py.re_sub pat rep s)
  | ItemText _ => inl (Exc TypeError "cannot use a bytes pattern on a string-like object")
  | ItemOther _ => inl (Exc TypeError "expected string or bytes-like object")
  end.

(** The two serialization strategies: [lxml.etree.tostring] and
    [lxml.html.tostring]. *)
Inductive tostring := etree_tostring | html_tostring.

#[global] Instance tostring_eq_dec : EqDecision tostring.
Proof. solve_decision. Defined.

(** ** The request *)

(** The publisher's request as the transforms use it: the values set with
    [request.set] / [request[k] = v] and read with [request.get] (the
    flags), the inbound headers, and the headers of [request.response]. *)
Record request := Request {
  other : gmap string bool;
  environ : gmap string string;
  response_headers : gmap string string
}.

Definition flag_disabled : string := "plone.app.blocks.disabled".
Definition flag_enabled : string := "plone.app.blocks.enabled".
Definition flag_merged : string := "plone.app.blocks.merged".

(** [request.get(k, False)], as a truth value. *)
Definition get_flag (k : string) (r : request) : bool :=
  default false (other r !! k).

Definition set_flag (k : string) (v : bool) (r : request) : request :=
  Request (<[k := v]> (other r)) (environ r) (response_headers r).

Definition set_response_header (k v : string) (r : request) : request :=
  Request (other r) (environ r) (<[k := v]> (response_headers r)).

(** ** Collaborators *)

(** A [repoze.xmliter] [XMLSerializer]: the parsed tree and the function
    that serializes it, with the options it was created with. *)
Record XMLSerializer (T : Type) := mkXMLSerializer {
  tree : T;
  serializer : tostring;
  xs_pretty_print : bool;
  xs_encoding : string
}.
Arguments mkXMLSerializer {T}.
Arguments tree {T}.
Arguments serializer {T}.
Arguments xs_pretty_print {T}.
Arguments xs_encoding {T}.

(** The code outside this package that the transforms call, and the
    constants they import.  Every call may raise.  The collaborators that
    receive the request read it and do not write to it. *)
Record Env := mkEnv {
  (* an lxml element tree *)
  Tree : Type;
  (* [tree.docinfo.doctype], empty when the document has none *)
  doctype : Tree → string;
  (* [repoze.xmliter.utils.getHTMLSerializer(iterable, pretty_print, encoding)] *)
  getHTMLSerializer : list bytes → bool → codec → exc + XMLSerializer Tree;
  (* [plone.app.blocks.panel.merge(request, tree)]; [None] when no layout applies *)
  panel_merge : request → Tree → exc + option Tree;
  (* [plone.app.blocks.tiles.renderTiles(request, tree)] *)
  tiles_renderTiles : request → Tree → exc + Tree;
  (* [plone.tiles.esi.substituteESILinks(rendered)] *)
  esi_substituteESILinks : value → exc + value;
  (* [plone.tiles.interfaces.ESI_HEADER] *)
  ESI_HEADER : string;
  (* [str(x)] and [iter(x)] of an [XMLSerializer] *)
  xml_str : XMLSerializer Tree → text;
  xml_iter : XMLSerializer Tree → list item;
  (* [str(l)] of a plain iterable of chunks *)
  chunks_str : list item → text;
  (* the class attribute [ParseXML.pretty_print] *)
  pretty_print : bool
}.

(** The sequencing of calls that may raise. *)
Definition bind_exc {A B} (x : exc + A) (f : A → exc + B) : exc + B :=
  match x with
  | inl e => inl e
  | inr a => f a
  end.

(** A list comprehension [[f(x) for x in l]] whose [f] may raise: the
    first exception ends it. *)
Fixpoint map_exc {A B} (f : A → exc + B) (l : list A) : exc + list B :=
  match l with
  | [] => inr []
  | x :: l' =>
      bind_exc (f x) (λ y, bind_exc (map_exc f l') (λ ys, inr (y :: ys)))
  end.

Section Transform.

Context (E : Env).

(** ** State and effects *)

(** What a transform can read and write: the request, the [XMLSerializer]
    objects (by reference) and the log. *)
Record world := World {
  req : request;
  heap : gmap loc (XMLSerializer (Tree E));
  log : list exc
}.

Inductive outcome (A : Type) :=
| Returns (a : A) (w : world)
| Raises (e : exc) (w : world).
Arguments Returns {A}.
Arguments Raises {A}.

(** A computation over the world that returns or raises. *)
Definition M (A : Type) : Type := world → outcome A.

Definition ret {A} (a : A) : M A := λ w, Returns a w.

Definition bind {A B} (m : M A) (f : A → M B) : M B := λ w,
  match m w with
  | Returns a w' => f a w'
  | Raises e w' => Raises e w'
  end.

#[local] Notation "'let*' x ':=' m 'in' k" := (bind m (λ x, k))
  (at level 10, x name, m at level 100, k at level 200).

Definition raise {A} (e : exc) : M A := λ w, Raises e w.

Definition lift {A} (x : exc + A) : M A :=
  match x with
  | inl e => raise e
  | inr a => ret a
  end.

(** [try: body  except classes as e: handler(e)]. *)
Definition try_except {A} (body : M A) (classes : list exc_class)
    (handler : exc → M A) : M A := λ w,
  match body w with
  | Returns a w' => Returns a w'
  | Raises e w' => if except_matches classes e then handler e w' else Raises e w'
  end.

Definition get_request : M request := λ w, Returns (req w) w.

Definition modify_request (f : request → request) : M unit := λ w,
  Returns () (World (f (req w)) (heap w) (log w)).

(** [self.request.get(k, False)]. *)
Definition request_get (k : string) : M bool :=
  let* r := get_request in ret (get_flag k r).

(** [self.request.set(k, v)] and [self.request[k] = v]. *)
Definition request_set (k : string) (v : bool) : M unit :=
  modify_request (set_flag k v).

(** [self.request.getHeader(name, default)]. *)
Definition request_getHeader (name dflt : string) : M string :=
  let* r := get_request in ret (default dflt (environ r !! name)).

(** [self.request.response.getHeader(name)]. *)
Definition response_getHeader (name : string) : M (option string) :=
  let* r := get_request in ret (response_headers r !! name).

(** [self.request.response.setHeader(name, v)]. *)
Definition response_setHeader (name v : string) : M unit :=
  modify_request (set_response_header name v).

(** [logger.error(e)]. *)
Definition logger_error (e : exc) : M unit := λ w,
  Returns () (World (req w) (heap w) (log w ++ [e])).

(** Reading the object behind a reference.  Python has no dangling
    reference; on a world that has one the model raises, so that the case
    is never taken for a result. *)
Definition deref (l : loc) : M (XMLSerializer (Tree E)) := λ w,
  match heap w !! l with
  | Some x => Returns x w
  | None => Raises (Exc ReferenceError "no such object") w
  end.

(** A newly created object. *)
Definition new (x : XMLSerializer (Tree E)) : M loc := λ w,
  let l := fresh (dom (heap w)) in
  Returns l (World (req w) (<[l := x]> (heap w)) (log w)).

Definition store (l : loc) (x : XMLSerializer (Tree E)) : M unit := λ w,
  Returns () (World (req w) (<[l := x]> (heap w)) (log w)).

Definition update (l : loc) (f : XMLSerializer (Tree E) → XMLSerializer (Tree E)) : M unit :=
  let* x := deref l in store l (f x).

(** [result.tree = t]. *)
Definition set_tree (l : loc) (t : Tree E) : M unit :=
  update l (λ x, mkXMLSerializer t (serializer x) (xs_pretty_print x) (xs_encoding x)).

(** [result.serializer = f]. *)
Definition set_serializer (l : loc) (f : tostring) : M unit :=
  update l (λ x, mkXMLSerializer (tree x) f (xs_pretty_print x) (xs_encoding x)).

(** [for item in result]: the chunks of the iterable. *)
Definition iterate (result : iterable) : M (list item) :=
  match result with
  | Chunks items => ret items
  | Serializer l => let* x := deref l in ret (xml_iter E x)
  end.

(** [str(result)]. *)
Definition py_str (result : iterable) : M text :=
  match result with
  | Chunks items => ret (chunks_str E items)
  | Serializer l => let* x := deref l in ret (xml_str E x)
  end.

End Transform.

Arguments World {E}.
Arguments req {E}.
Arguments heap {E}.
Arguments log {E}.
Arguments Returns {E A}.
Arguments Raises {E A}.
Arguments ret {E A}.
Arguments bind {E A B}.

Notation "'let*' x ':=' m 'in' k" := (bind m (λ x, k))
  (at level 10, x name, m at level 100, k at level 200).

Arguments raise {E A}.
Arguments lift {E A}.
Arguments try_except {E A}.
Arguments get_request {E}.
Arguments modify_request {E}.
Arguments request_get {E}.
Arguments request_set {E}.
Arguments request_getHeader {E}.
Arguments response_getHeader {E}.
Arguments response_setHeader {E}.
Arguments logger_error {E}.
Arguments deref {E}.
Arguments new {E}.
Arguments store {E}.
Arguments update {E}.
Arguments set_tree {E}.
Arguments set_serializer {E}.
Arguments iterate {E}.
Arguments py_str {E}.

(** ** The transforms *)

(** Each class of [transform.py] is a module; its three entry points take
    the result and the encoding and return [None] (no change) or the new
    result. *)

Module DisableParsing.
Section Methods.
Context (E : Env).

Definition order : Z := 8000.

Definition transformBytes (result : bytes) (encoding : codec) : M E (option value) :=
  let* _ := request_set flag_disabled true in ret None.

Definition transformUnicode (result : text) (encoding : codec) : M E (option value) :=
  let* _ := request_set flag_disabled true in ret None.

Definition transformIterable (result : iterable) (encoding : codec) : M E (option value) :=
  let* _ := request_set flag_disabled true in ret None.

End Methods.
End DisableParsing.

Module ParseXML.
Section Methods.
Context (E : Env).

Definition order : Z := 8000.

Definition CRLF : bytes := Py.b "&#13;" ++ [x0a].
Definition CR : bytes := Py.b "&#13;".
Definition LF : bytes := [x0a].
Definition CDATA : bytes := Py.b "<![CDATA[".

(** [re.sub(b"&#13;", b"\n", re.sub(b"&#13;\n", b"\n", safe_bytes(item)))]. *)
Definition normalize (item0 : item) : exc + bytes :=
  bind_exc (safe_bytes item0) (λ x,
  bind_exc (py_re_sub CRLF LF x) (λ y,
  py_re_sub CR LF (ItemBytes y))).

(** [contentEncoding and contentEncoding in ("zip", "deflate", "compress")]. *)
Definition is_compressed (contentEncoding : option string) : bool :=
  match contentEncoding with
  | None => false
  | Some e => negb (bool_decide (e = "")) && bool_decide (e ∈ ["zip"; "deflate"; "compress"])
  end.

(** [content_type is None or not content_type.startswith("text/html")]. *)
Definition not_html (content_type : option string) : bool :=
  match content_type with
  | None => true
  | Some ct => negb (Py.str_startswith "text/html" ct)
  end.

Definition transformIterable (result : iterable) (encoding : codec) : M E (option value) :=
  let* disabled := request_get flag_disabled in
  if disabled then ret None else
  let* content_type := response_getHeader "Content-Type" in
  if not_html content_type then ret None else
  let* contentEncoding := response_getHeader "Content-Encoding" in
  if is_compressed contentEncoding then ret None else
  try_except
    (let* items := iterate result in
     let* iterable := lift (map_exc normalize (filter (λ i, truthy i = true) items)) in
     let* x := lift (getHTMLSerializer E iterable (pretty_print E) encoding) in
     let* l := new x in
     let* _ := (if existsb (Py.contains CDATA) iterable
                then set_serializer l html_tostring else ret ()) in
     let* _ := request_set flag_enabled true in
     ret (Some (Parsed l)))
    [AttributeError; TypeError; ParseError]
    (λ e, let* _ := logger_error e in ret None).

Definition transformBytes (result : bytes) (encoding : codec) : M E (option value) :=
  transformIterable (Chunks [ItemBytes result]) encoding.

Definition transformUnicode (result : text) (encoding : codec) : M E (option value) :=
  transformIterable (Chunks [ItemText result]) encoding.

End Methods.
End ParseXML.

Module MergePanels.
Section Methods.
Context (E : Env).

Definition order : Z := 8100.

Definition transformBytes (result : bytes) (encoding : codec) : M E (option value) :=
  ret None.

Definition transformUnicode (result : text) (encoding : codec) : M E (option value) :=
  ret None.

(** [doctype and "XHTML" not in doctype]. *)
Definition not_xhtml (dt : string) : bool :=
  negb (bool_decide (dt = "")) && negb (Py.str_contains "XHTML" dt).

Definition transformIterable (result : iterable) (encoding : codec) : M E (option value) :=
  let* enabled := request_get flag_enabled in
  if negb enabled || negb (is_XMLSerializer result) then ret None else
  match result with
  | Chunks _ => ret None
  | Serializer l =>
      let* x := deref l in
      let* r := get_request in
      let* merged := lift (panel_merge E r (tree x)) in
      match merged with
      | None => ret None
      | Some t =>
          let* _ := request_set flag_merged true in
          let* _ := set_tree l t in
          let* x' := deref l in
          let* _ := (if not_xhtml (doctype E (tree x'))
                     then set_serializer l html_tostring else ret ()) in
          ret (Some (Parsed l))
      end
  end.

End Methods.
End MergePanels.

Module IncludeTiles.
Section Methods.
Context (E : Env).

Definition order : Z := 8500.

Definition transformBytes (result : bytes) (encoding : codec) : M E (option value) :=
  ret None.

Definition transformUnicode (result : text) (encoding : codec) : M E (option value) :=
  ret None.

Definition transformIterable (result : iterable) (encoding : codec) : M E (option value) :=
  let* enabled := request_get flag_enabled in
  if negb enabled || negb (is_XMLSerializer result) then ret None else
  match result with
  | Chunks _ => ret None
  | Serializer l =>
      let* x := deref l in
      let* r := get_request in
      let* t := lift (tiles_renderTiles E r (tree x)) in
      let* _ := set_tree l t in
      ret (Some (Parsed l))
  end.

End Methods.
End IncludeTiles.

Module ESIRender.
Section Methods.
Context (E : Env).

Definition order : Z := 9900.

(** [self.request.getHeader(ESI_HEADER, "false").lower() != "true"]. *)
Definition esi_off : M E bool :=
  let* h := request_getHeader (ESI_HEADER E) "false" in
  ret (negb (bool_decide (Py.lower h = "true"))).

Definition transformBytes (result : bytes) (encoding : codec) : M E (option value) :=
  let* off := esi_off in
  if off then ret None else
  let* r := lift (esi_substituteESILinks E (Iter (Chunks [ItemBytes result]))) in
  ret (Some r).

Definition transformUnicode (result : text) (encoding : codec) : M E (option value) :=
  let* off := esi_off in
  if off then ret None else
  let* r := lift (esi_substituteESILinks E
                    (Iter (Chunks [ItemBytes (encode_ignore encoding result)]))) in
  ret (Some r).

(** [result = "".join(str(result))] joins the characters of [str(result)]
    with the empty separator, which gives [str(result)] back. *)
Definition transformIterable (result : iterable) (encoding : codec) : M E (option value) :=
  let* off := esi_off in
  if off then ret None else
  let* result' := py_str result in
  let* transformed := lift (esi_substituteESILinks E (Text result')) in
  let* _ := (if bool_decide (transformed ≠ Text result')
             then response_setHeader "X-Esi" "1" else ret ()) in
  ret (Some transformed).

End Methods.
End ESIRender.

(** ** The chain *)

Module Chain.

(** The transforms, by the class that implements them. *)
Inductive stage := disableparsing | parsexml | mergepanels | includetiles | esirender.

#[global] Instance stage_eq_dec : EqDecision stage.
Proof. solve_decision. Defined.

Definition order (s : stage) : Z :=
  match s with
  | disableparsing => DisableParsing.order
  | parsexml => ParseXML.order
  | mergepanels => MergePanels.order
  | includetiles => IncludeTiles.order
  | esirender => ESIRender.order
  end.

Section Run.
Context (E : Env).

Definition transformBytes (s : stage) : bytes → codec → M E (option value) :=
  match s with
  | disableparsing => DisableParsing.transformBytes E
  | parsexml => ParseXML.transformBytes E
  | mergepanels => MergePanels.transformBytes E
  | includetiles => IncludeTiles.transformBytes E
  | esirender => ESIRender.transformBytes E
  end.

Definition transformUnicode (s : stage) : text → codec → M E (option value) :=
  match s with
  | disableparsing => DisableParsing.transformUnicode E
  | parsexml => ParseXML.transformUnicode E
  | mergepanels => MergePanels.transformUnicode E
  | includetiles => IncludeTiles.transformUnicode E
  | esirender => ESIRender.transformUnicode E
  end.

Definition transformIterable (s : stage) : iterable → codec → M E (option value) :=
  match s with
  | disableparsing => DisableParsing.transformIterable E
  | parsexml => ParseXML.transformIterable E
  | mergepanels => MergePanels.transformIterable E
  | includetiles => IncludeTiles.transformIterable E
  | esirender => ESIRender.transformIterable E
  end.

(** Modelled from the spec: the stage runner, which is not part of
    [transform.py].  It invokes the entry point of the stage that matches
    the variant of the current result. *)
Definition invoke (s : stage) (result : value) (encoding : codec) : M E (option value) :=
  match result with
  | Text t => transformUnicode s t encoding
  | Bytes b => transformBytes s b encoding
  | Iter it => transformIterable s it encoding
  end.

(** Modelled from the spec: the stage runner.  The stages are invoked in
    the order given, once each; a stage that returns a new result replaces
    the current one for the later stages, a stage that returns nothing
    leaves it, and an exception that a stage lets through ends the chain. *)
Fixpoint run (stages : list stage) (result : value) (encoding : codec) : M E value :=
  match stages with
  | [] => ret result
  | s :: rest =>
      let* r := invoke s result encoding in
      run rest (default result r) encoding
  end.

End Run.

(** Modelled from the spec: the stage runner orders the registered stages
    by ascending priority, and keeps the registration order of stages of
    the same priority. *)
Fixpoint insert_stage (s : stage) (l : list stage) : list stage :=
  match l with
  | [] => [s]
  | s' :: l' =>
      if (order s <=? order s')%Z then s :: l else s' :: insert_stage s l'
  end.

Definition sort_stages (l : list stage) : list stage :=
  foldr insert_stage [] l.

(** Modelled from the spec: one execution of the chain over the registered
    stages. *)
Definition transform_chain (E : Env) (registered : list stage) (result : value)
    (encoding : codec) : M E value :=
  run E (sort_stages registered) result encoding.

(** The stages of an ordinary request, and those of a request for which
    [DisableParsing] is registered too. *)
Definition pipeline : list stage := [parsexml; mergepanels; includetiles; esirender].
Definition pipeline_bypassed : list stage := disableparsing :: pipeline.

End Chain.

(** ** A small environment to run the transforms in *)

Module Demo.

(** A stand-in for lxml: the tree of a document is the document's bytes. *)
Definition tree_t : Type := bytes.

(** The doctype is XHTML when the document says so. *)
Definition doctype (t : tree_t) : string :=
  if Py.contains (Py.b "<!DOCTYPE") t
  then (if Py.contains (Py.b "XHTML") t then "<!DOCTYPE html PUBLIC XHTML>" else "<!DOCTYPE html>")
  else "".

(** The parser joins the chunks; it rejects a document with a NUL byte.
    As [getHTMLSerializer] does, it serializes an XHTML document with
    [etree.tostring] and any other with [html.tostring]. *)
Definition getHTMLSerializer (chunks : list bytes) (pp : bool) (enc : codec)
    : exc + XMLSerializer tree_t :=
  let doc := concat chunks in
  if Py.contains [x00] doc then inl (Exc XMLSyntaxError "Document is empty")
  else inr (mkXMLSerializer doc
              (if Py.str_contains "XHTML" (doctype doc) then etree_tostring else html_tostring)
              pp (codec_name enc)).

(** A layout applies to the pages that name one. *)
Definition panel_merge (r : request) (t : tree_t) : exc + option tree_t :=
  if Py.contains (Py.b "data-layout") t
  then inr (Some (Py.b "<!DOCTYPE html><html>" ++ t ++ Py.b "</html>"))
  else inr None.

(** Every tile placeholder is replaced by its content. *)
Definition tiles_renderTiles (r : request) (t : tree_t) : exc + tree_t :=
  inr (Py.re_sub (Py.b "<tile/>") (Py.b "<p>tile</p>") t).

Definition text_of_bytes (s : bytes) : text := Byte.to_N <$> s.

Definition chunk_bytes (i : item) : bytes :=
  match i with
  | ItemBytes s => s
  | _ => []
  end.

(** Every placeholder link ([*], U+002A) is replaced by an include
    ([@], U+0040). *)
Definition esi_substituteESILinks (v : value) : exc + value :=
  match v with
  | Text s => inr (Text (Py.re_sub [42%N] [64%N] s))
  | Bytes s => inr (Bytes (Py.re_sub [x2a] [x40] s))
  | Iter (Chunks items) =>
      inr (Bytes (Py.re_sub [x2a] [x40] (concat (chunk_bytes <$> items))))
  | Iter (Serializer _) => inl (Exc TypeError "expected string or bytes-like object")
  end.

Definition text_of_string (s : string) : text :=
  text_of_bytes (String.list_byte_of_string s).

(** [repr] of a chunk, for chunks of printable ASCII without quote or
    backslash, and [str] of a list of chunks. *)
Definition repr_item (i : item) : text :=
  match i with
  | ItemBytes s => text_of_string "b'" ++ text_of_bytes s ++ text_of_string "'"
  | ItemText s => text_of_string "'" ++ s ++ text_of_string "'"
  | ItemOther _ => text_of_string "<object>"
  end.

Fixpoint join (sep : text) (l : list text) : text :=
  match l with
  | [] => []
  | [x] => x
  | x :: l' => x ++ sep ++ join sep l'
  end.

Definition chunks_str (items : list item) : text :=
  text_of_string "[" ++ join (text_of_string ", ") (repr_item <$> items)
    ++ text_of_string "]".

Definition env : Env :=
  mkEnv tree_t doctype getHTMLSerializer panel_merge tiles_renderTiles
    esi_substituteESILinks
    "X-ESI-Enabled"
    (λ x, text_of_bytes (tree x))
    (λ x, [ItemBytes (tree x)])
    chunks_str
    false.

(** A response of the given headers on a fresh request. *)
Definition fresh_request (inbound outbound : list (string * string)) : request :=
  Request ∅ (list_to_map inbound) (list_to_map outbound).

Definition fresh_world (inbound outbound : list (string * string)) : world env :=
  World (fresh_request inbound outbound) ∅ [].

(** Requests of the kinds that the properties below tell apart. *)
Definition html : list (string * string) := [("Content-Type", "text/html; charset=utf-8")].
Definition json : list (string * string) := [("Content-Type", "application/json")].
Definition deflated : list (string * string) :=
  [("Content-Type", "text/html"); ("Content-Encoding", "deflate")].
Definition gzipped : list (string * string) :=
  [("Content-Type", "text/html"); ("Content-Encoding", "gzip")].
Definition edge : list (string * string) := [("X-ESI-Enabled", "True")].

(** A request on which the bypass flag has been set. *)
Definition bypassed_world : world env :=
  World (Request {[flag_disabled := true]} (list_to_map edge) (list_to_map html)) ∅ [].

(** A request whose page has been parsed: [enabled] is set and the chain
    holds the serializer object [1]. *)
Definition page : XMLSerializer tree_t :=
  mkXMLSerializer (Py.b "<html><p>page</p></html>") etree_tostring false "utf-8".

Definition parsed_world : world env :=
  World (Request {[flag_enabled := true]} ∅ (list_to_map html)) {[1%positive := page]} [].

End Demo.

(** ** An environment whose collaborators fail *)

Module Faulty.

(** The layout, the tiles and the edge includes are unavailable: each
    collaborator raises.  The parser is the one of [Demo]. *)
Definition env : Env :=
  mkEnv Demo.tree_t Demo.doctype Demo.getHTMLSerializer
    (λ _ _, inl (Exc RuntimeError "layout unavailable"))
    (λ _ _, inl (Exc RuntimeError "tile unavailable"))
    (λ _, inl (Exc RuntimeError "include unavailable"))
    "X-ESI-Enabled"
    (λ x, Demo.text_of_bytes (tree x))
    (λ x, [ItemBytes (tree x)])
    Demo.chunks_str
    false.

(** A request whose page has been parsed, with the edge header set. *)
Definition parsed_world : world env :=
  World (Request {[flag_enabled := true]} (list_to_map Demo.edge) (list_to_map Demo.html))
    {[1%positive := Demo.page]} [].

End Faulty.

(** ** Notions used to state the properties *)

(** The normalization of a chunk as one pass from left to right: an
    encoded carriage return followed by a linefeed becomes a linefeed, an
    encoded carriage return that no linefeed follows becomes a linefeed,
    and any other byte is kept. *)
Inductive collapsed : bytes → bytes → Prop :=
| collapsed_nil :
    collapsed [] []
| collapsed_crlf s t :
    collapsed s t →
    collapsed (ParseXML.CR ++ ParseXML.LF ++ s) (ParseXML.LF ++ t)
| collapsed_cr s t :
    Py.startswith ParseXML.LF s = false →
    collapsed s t →
    collapsed (ParseXML.CR ++ s) (ParseXML.LF ++ t)
| collapsed_byte c s t :
    Py.startswith ParseXML.CR (c :: s) = false →
    collapsed s t →
    collapsed (c :: s) (c :: t).

(** The world in which a computation ends, whether it returns or raises. *)
Definition final {E A} (o : outcome E A) : world E :=
  match o with
  | Returns _ w => w
  | Raises _ w => w
  end.

(** Every flag of [r'] has the value it has in [r], or is true. *)
Definition flags_grow (r r' : request) : Prop :=
  ∀ k, other r' !! k = other r !! k ∨ other r' !! k = Some true.

(** A computation all of whose flag writes write true. *)
Definition monotone {E A} (m : M E A) : Prop :=
  ∀ w, flags_grow (req w) (req (final (m w))).

(** [w'] is [w], but for the bypass flag, which may have been set. *)
Definition same_but_disabled {E} (w w' : world E) : Prop :=
  heap w' = heap w ∧ log w' = log w ∧
  environ (req w') = environ (req w) ∧
  response_headers (req w') = response_headers (req w) ∧
  (other (req w') = other (req w) ∨
   other (req w') = <[flag_disabled := true]> (other (req w))).

(** The edge header says that directives are to be resolved inline. *)
Definition esi_on {E} (w : world E) : bool :=
  bool_decide (Py.lower (default "false" (environ (req w) !! ESI_HEADER E)) = "true").

(** The pure part of the body of [ParseXML.transformIterable]: the
    chunks that are accepted and normalized, then parsed. *)
Definition parse_chunks (E : Env) (items : list item) (encoding : codec)
    : exc + (list bytes * XMLSerializer (Tree E)) :=
  bind_exc (map_exc ParseXML.normalize (filter (λ i, truthy i = true) items)) (λ chunks,
  bind_exc (getHTMLSerializer E chunks (pretty_print E) encoding) (λ x,
  inr (chunks, x))).

(** The serializer object that [ParseXML.transformIterable] returns for
    the parser's [x]. *)
Definition cdata_fix {T} (chunks : list bytes) (x : XMLSerializer T) : XMLSerializer T :=
  if existsb (Py.contains ParseXML.CDATA) chunks
  then mkXMLSerializer (tree x) html_tostring (xs_pretty_print x) (xs_encoding x)
  else x.

(** The guards of [ParseXML.transformIterable] let the request through. *)
Definition parse_guards_pass {E} (w : world E) : Prop :=
  get_flag flag_disabled (req w) = false ∧
  ParseXML.not_html (response_headers (req w) !! "Content-Type") = false ∧
  ParseXML.is_compressed (response_headers (req w) !! "Content-Encoding") = false.

(** A computation that leaves true every flag that is true. *)
Definition never_resets {E A} (m : M E A) : Prop :=
  ∀ w k, get_flag k (req w) = true → get_flag k (req (final (m w))) = true.

(** [isinstance(result, XMLSerializer)] on a result of any variant. *)
Definition is_parsed (result : value) : bool :=
  match result with
  | Iter it => is_XMLSerializer it
  | _ => false
  end.

(** A page that names a layout and holds a tile, once parsed. *)
Definition layout_page : XMLSerializer Demo.tree_t :=
  mkXMLSerializer (Py.b "<p data-layout>a<tile/></p>") etree_tostring false "utf-8".

Definition layout_world : world Demo.env :=
  World (Request {[flag_enabled := true]} ∅ (list_to_map Demo.html))
    {[1%positive := Demo.page; 2%positive := layout_page]} [].

(** [x] with the tree [t]. *)
Definition with_tree {T} (t : T) (x : XMLSerializer T) : XMLSerializer T :=
  mkXMLSerializer t (serializer x) (xs_pretty_print x) (xs_encoding x).

(** What one call of a stage on [input] may have written to the flags,
    the response headers, the serializer objects and the log:
    - the Bypass stage sets [disabled];
    - the Parse stage does nothing, or appends one entry to the log, or
      sets [enabled] and creates one object;
    - the Panel-Merge stage does nothing, or sets [merged] and gives the
      object that is its input a new tree and possibly another serializer;
    - the Tile-Inclusion stage does nothing, or gives the object that is
      its input a new tree;
    - the Edge-Directive stage does nothing, or, on an iterable, sets the
      response header [X-Esi] to ["1"]. *)
Definition footprint {E} (s : Chain.stage) (input : value) (w w' : world E) : Prop :=
  match s with
  | Chain.disableparsing =>
      other (req w') = <[flag_disabled := true]> (other (req w)) ∧
      response_headers (req w') = response_headers (req w) ∧
      heap w' = heap w ∧ log w' = log w
  | Chain.parsexml =>
      response_headers (req w') = response_headers (req w) ∧
      ((other (req w') = other (req w) ∧ heap w' = heap w ∧
        (log w' = log w ∨ ∃ e, log w' = log w ++ [e])) ∨
       (∃ l x, heap w !! l = None ∧
          other (req w') = <[flag_enabled := true]> (other (req w)) ∧
          heap w' = <[l := x]> (heap w) ∧ log w' = log w))
  | Chain.mergepanels =>
      response_headers (req w') = response_headers (req w) ∧ log w' = log w ∧
      ((other (req w') = other (req w) ∧ heap w' = heap w) ∨
       (∃ l x t f, input = Parsed l ∧ heap w !! l = Some x ∧
          other (req w') = <[flag_merged := true]> (other (req w)) ∧
          heap w' = <[l := mkXMLSerializer t f (xs_pretty_print x) (xs_encoding x)]>
                      (heap w)))
  | Chain.includetiles =>
      response_headers (req w') = response_headers (req w) ∧ log w' = log w ∧
      other (req w') = other (req w) ∧
      (heap w' = heap w ∨
       (∃ l x t, input = Parsed l ∧ heap w !! l = Some x ∧
          heap w' = <[l := with_tree t x]> (heap w)))
  | Chain.esirender =>
      other (req w') = other (req w) ∧ heap w' = heap w ∧ log w' = log w ∧
      (response_headers (req w') = response_headers (req w) ∨
       (∃ it, input = Iter it) ∧
       response_headers (req w') = <["X-Esi" := "1"]> (response_headers (req w)))
  end.

(** The sixteen spellings of ["true"]. *)
Definition true_spellings : list string :=
  ["true"; "truE"; "trUe"; "trUE"; "tRue"; "tRuE"; "tRUe"; "tRUE";
   "True"; "TruE"; "TrUe"; "TrUE"; "TRue"; "TRuE"; "TRUe"; "TRUE"].

(** * Properties *)

Example re_sub_ex1 :
  Py.re_sub (Py.b "&#13;") [x0a] (Py.b "a&#13;&#13;b&#1") = Py.b "a" ++ [x0a; x0a] ++ Py.b "b&#1".
Proof. reflexivity. Qed.

Example lower_ex1 : Py.lower "TrUe" = "true".
Proof. reflexivity. Qed.

(** ** Facts about the Python primitives *)

Section PyFacts.
Context {A : Type} `{EqDecision A}.
Implicit Types (p pat rep s : list A).

Lemma startswith_app p r : Py.startswith p (p ++ r) = true.
Proof.
  induction p as [|a p IH]; simpl; [done|].
  by rewrite decide_True.
Qed.

Lemma startswith_inv p s : Py.startswith p s = true → ∃ r, s = p ++ r.
Proof.
  revert s. induction p as [|a p IH]; intros s Hs.
  - by exists s.
  - destruct s as [|c s]; simpl in Hs; [done|].
    destruct (decide (a = c)) as [->|]; [|done].
    destruct (IH _ Hs) as [r ->]. by exists r.
Qed.

Lemma startswith_nil_r p : Py.startswith p [] = true → p = [].
Proof. by destruct p. Qed.

Lemma startswith_cons a p c s :
  Py.startswith (a :: p) (c :: s) = bool_decide (a = c) && Py.startswith p s.
Proof.
  simpl. destruct (decide (a = c)).
  - by rewrite bool_decide_true.
  - by rewrite bool_decide_false.
Qed.

Lemma startswith_cons_ne a p c s : a ≠ c → Py.startswith (a :: p) (c :: s) = false.
Proof. intros. simpl. by rewrite decide_False. Qed.

Lemma sub_from_skip pat rep u r :
  Py.sub_from pat rep (length u) (u ++ r) = Py.sub_from pat rep 0 r.
Proof. induction u as [|c u IH]; simpl; [by destruct r|done]. Qed.

(** The two equations of [re.sub]: at an occurrence, and elsewhere. *)
Lemma re_sub_match pat rep r :
  pat ≠ [] → Py.re_sub pat rep (pat ++ r) = rep ++ Py.re_sub pat rep r.
Proof.
  intros Hpat. destruct pat as [|a p]; [done|].
  unfold Py.re_sub.
  change (Py.sub_from (a :: p) rep 0 ((a :: p) ++ r))
    with (if Py.startswith (a :: p) ((a :: p) ++ r)
          then rep ++ Py.sub_from (a :: p) rep (length p) (p ++ r)
          else a :: Py.sub_from (a :: p) rep 0 (p ++ r)).
  by rewrite startswith_app, sub_from_skip.
Qed.

Lemma re_sub_skip pat rep c s :
  Py.startswith pat (c :: s) = false →
  Py.re_sub pat rep (c :: s) = c :: Py.re_sub pat rep s.
Proof. intros Hs. unfold Py.re_sub. simpl Py.sub_from. by rewrite Hs. Qed.

Lemma re_sub_nil pat rep : Py.re_sub pat rep [] = [].
Proof. done. Qed.

(** A block without the replacement character that begins the result
    of [re.sub] begins its argument too. *)
Lemma re_sub_startswith pat x p s :
  x ∉ p →
  Py.startswith p (Py.re_sub pat [x] s) = true →
  Py.startswith p s = true.
Proof.
  revert p. induction s as [|c s IH]; intros p Hx Hp.
  - by rewrite re_sub_nil in Hp.
  - destruct p as [|a p]; [done|].
    destruct (Py.startswith pat (c :: s)) eqn:Hpat.
    + destruct pat as [|a' pat'].
      * (* the empty pattern is not a pattern of the source *)
        unfold Py.re_sub in Hp. simpl in Hp.
        destruct (decide (a = x)) as [->|]; [|done].
        exfalso. apply Hx. left.
      * destruct (startswith_inv _ _ Hpat) as [r Hr].
        rewrite Hr, re_sub_match in Hp by done. simpl in Hp.
        destruct (decide (a = x)) as [->|]; [|done].
        exfalso. apply Hx. left.
    + rewrite re_sub_skip in Hp by done. simpl in Hp |- *.
      destruct (decide (a = c)) as [->|]; [|done].
      apply IH; [|done]. intros Hin. apply Hx. by right.
Qed.

Lemma contains_nil_r pat : pat ≠ [] → Py.contains pat [] = false.
Proof. by destruct pat. Qed.

(** After [re.sub(pat, x, s)], with [x] a single character that is not in
    [pat], no occurrence of [pat] is left. *)
Lemma re_sub_no_occurrence pat x s :
  pat ≠ [] → x ∉ pat → Py.contains pat (Py.re_sub pat [x] s) = false.
Proof.
  intros Hpat Hx.
  remember (length s) as n eqn:Hn.
  assert (Hle : length s ≤ n) by lia. clear Hn.
  revert s Hle. induction n as [|n IH]; intros s Hle.
  - destruct s; [|simpl in Hle; lia]. by apply contains_nil_r.
  - destruct s as [|c s]; [by apply contains_nil_r|].
    destruct (Py.startswith pat (c :: s)) eqn:Hs.
    + destruct (startswith_inv _ _ Hs) as [r Hr].
      rewrite Hr, re_sub_match by done.
      simpl. rewrite IH.
      * destruct pat as [|a pat']; [done|].
        rewrite startswith_cons_ne; [done|].
        intros ->. apply Hx. left.
      * apply (f_equal length) in Hr. rewrite length_app in Hr.
        simpl in Hr, Hle. destruct pat; [done|]. simpl in Hr. lia.
    + rewrite re_sub_skip by done. simpl.
      rewrite IH by (simpl in Hle; lia).
      rewrite orb_false_r.
      destruct pat as [|a pat']; [done|]. simpl.
      destruct (decide (a = c)) as [->|]; [|done].
      destruct (Py.startswith pat' (Py.re_sub (c :: pat') [x] s)) eqn:Hp; [|done].
      apply re_sub_startswith in Hp.
      * simpl in Hs. by rewrite decide_True, Hp in Hs.
      * intros Hin. apply Hx. by right.
Qed.

(** A sequence without occurrence of the pattern is left as it is. *)
Lemma re_sub_id pat rep s :
  pat ≠ [] → Py.contains pat s = false → Py.re_sub pat rep s = s.
Proof.
  intros Hpat. induction s as [|c s IH]; intros Hc; [done|].
  simpl in Hc. apply orb_false_iff in Hc as [Hs Hc].
  rewrite re_sub_skip by done. by rewrite IH.
Qed.

End PyFacts.

(** ** The normalization of carriage returns *)

Section Normalize.
Import ParseXML.

Lemma LF_not_in_CR : x0a ∉ CR.
Proof. apply (bool_decide_unpack _). by vm_compute. Qed.

Lemma CR_cons : CR = x26 :: Py.b "#13;".
Proof. done. Qed.

Lemma LF_not_in_CR_tail : x0a ∉ Py.b "#13;".
Proof. apply (bool_decide_unpack _). by vm_compute. Qed.

Lemma CR_nonempty : CR ≠ [].
Proof. done. Qed.

Lemma CRLF_nonempty : CRLF ≠ [].
Proof. done. Qed.

Lemma CRLF_split : CRLF = CR ++ LF.
Proof. done. Qed.

Lemma startswith_CRLF_CR s :
  Py.startswith CRLF s = true → Py.startswith CR s = true.
Proof.
  intros Hs. destruct (startswith_inv _ _ Hs) as [r ->].
  rewrite CRLF_split, <- app_assoc. apply startswith_app.
Qed.

(** The first pass leaves alone an encoded carriage return that no
    linefeed follows. *)
Lemma first_pass_lone_CR r :
  Py.startswith LF r = false →
  Py.re_sub CRLF LF (CR ++ r) = CR ++ Py.re_sub CRLF LF r.
Proof.
  intros Hr. unfold CR. vm_compute (Py.b _). simpl app.
  rewrite re_sub_skip.
  2:{ unfold CRLF. vm_compute (Py.b _). simpl.
      repeat (rewrite decide_True by done). exact Hr. }
  do 4 (rewrite re_sub_skip by done). done.
Qed.

(** The two substitutions of the source, one after the other, are the
    one-pass normalization. *)
Lemma two_passes_collapsed s :
  collapsed s (Py.re_sub CR LF (Py.re_sub CRLF LF s)).
Proof.
  remember (length s) as n eqn:Hn.
  assert (Hle : length s ≤ n) by lia. clear Hn.
  revert s Hle. induction n as [|n IH]; intros s Hle.
  { destruct s; [constructor|simpl in Hle; lia]. }
  destruct s as [|c s]; [constructor|].
  destruct (Py.startswith CR (c :: s)) eqn:HCR.
  - destruct (startswith_inv _ _ HCR) as [r Hr]. rewrite Hr.
    assert (Hlen : length r ≤ n).
    { apply (f_equal length) in Hr. rewrite length_app in Hr.
      simpl in Hr, Hle. lia. }
    destruct (Py.startswith LF r) eqn:HLF.
    + destruct (startswith_inv _ _ HLF) as [r' ->].
      rewrite (app_assoc CR LF r'), <- CRLF_split.
      rewrite re_sub_match by done.
      change (LF ++ Py.re_sub CRLF LF r') with (x0a :: Py.re_sub CRLF LF r').
      rewrite re_sub_skip by done.
      rewrite CRLF_split, <- app_assoc.
      apply collapsed_crlf, IH.
      rewrite length_app in Hlen. simpl in Hlen. lia.
    + rewrite first_pass_lone_CR by done.
      rewrite re_sub_match by done.
      apply collapsed_cr; [done|]. by apply IH.
  - assert (H1 : Py.startswith CRLF (c :: s) = false).
    { destruct (Py.startswith CRLF (c :: s)) eqn:H1; [|done].
      apply startswith_CRLF_CR in H1. congruence. }
    rewrite re_sub_skip by done.
    assert (H2 : Py.startswith CR (c :: Py.re_sub CRLF LF s) = false).
    { destruct (Py.startswith CR (c :: Py.re_sub CRLF LF s)) eqn:H2; [|done].
      exfalso. rewrite CR_cons, startswith_cons in H2, HCR.
      apply andb_true_iff in H2 as [Hc H2]. rewrite Hc, andb_true_l in HCR.
      apply re_sub_startswith in H2; [congruence|].
      apply LF_not_in_CR_tail. }
    rewrite re_sub_skip by done.
    apply collapsed_byte; [done|]. apply IH. simpl in Hle. lia.
Qed.

(** The one-pass normalization determines its result. *)
Lemma collapsed_functional s t t' : collapsed s t → collapsed s t' → t = t'.
Proof.
  intros H1. revert t'.
  induction H1 as [|s t _ IH|s t HLF _ IH|c s t HCR _ IH]; intros t' H2;
    inversion H2 as [|s0 t0 H0 Heq|s0 t0 HLF0 H0 Heq|c0 s0 t0 HCR0 H0 Heq];
    simplify_eq;
    try (f_equal; by apply IH);
    try (rewrite <- ?Heq in *;
         first [ by vm_compute in HLF | by vm_compute in HLF0
               | by vm_compute in HCR | by vm_compute in HCR0
               | by rewrite (startswith_app CR) in HCR
               | by rewrite (startswith_app CR) in HCR0 ]).
Qed.

(** C5: on a chunk of bytes the normalization of the Parse stage succeeds;
    it turns every encoded carriage return followed by a linefeed into one
    linefeed and every other encoded carriage return into a linefeed,
    keeping the other bytes, and its result has no occurrence of the
    encoded carriage return. *)
Theorem ParseXML_normalize_bytes (chunk : bytes) :
  ∃ out,
    normalize (ItemBytes chunk) = inr out ∧
    collapsed chunk out ∧
    (∀ out', collapsed chunk out' → out' = out) ∧
    Py.contains CR out = false.
Proof.
  exists (Py.re_sub CR LF (Py.re_sub CRLF LF chunk)).
  split; [done|]. split; [apply two_passes_collapsed|]. split.
  - intros out' H'. eapply collapsed_functional; [done|apply two_passes_collapsed].
  - apply re_sub_no_occurrence; [done|apply LF_not_in_CR].
Qed.

End Normalize.

Example normalize_ex1 :
  ParseXML.normalize (ItemBytes (Py.b "<a>&#13;" ++ [x0a] ++ Py.b "b&#13;&#13;c&#1"))
  = inr (Py.b "<a>" ++ [x0a] ++ Py.b "b" ++ [x0a; x0a] ++ Py.b "c&#1").
Proof. reflexivity. Qed.

(** ** Running computations *)

Section Run.
Context {E : Env}.

Lemma bind_Returns {A B} (m : M E A) (f : A → M E B) w a w' :
  m w = Returns a w' → bind m f w = f a w'.
Proof. unfold bind. by intros ->. Qed.

Lemma bind_Raises {A B} (m : M E A) (f : A → M E B) w e w' :
  m w = Raises e w' → bind m f w = Raises e w'.
Proof. unfold bind. by intros ->. Qed.

Lemma world_eta (w : world E) : World (req w) (heap w) (log w) = w.
Proof. by destruct w. Qed.

Lemma request_eta (r : request) :
  Request (other r) (environ r) (response_headers r) = r.
Proof. by destruct r. Qed.

Lemma iterate_world result (w w' : world E) items :
  iterate result w = Returns items w' → w' = w.
Proof.
  destruct result as [its|l]; simpl.
  - unfold ret. by intros [= _ ->].
  - unfold bind, deref, ret. destruct (heap w !! l); by intros [= <-] || intros [= _ <-].
Qed.

End Run.

Section ParseXMLFacts.
Context (E : Env).
Import ParseXML.

(** What [ParseXML.transformIterable] does once its guards have let the
    request through. *)
Lemma ParseXML_guarded result encoding (w : world E) items :
  parse_guards_pass w →
  iterate result w = Returns items w →
  transformIterable E result encoding w =
    match parse_chunks E items encoding with
    | inr (chunks, x) =>
        let l := fresh (dom (heap w)) in
        Returns (Some (Parsed l))
          (World (set_flag flag_enabled true (req w))
                 (<[l := cdata_fix chunks x]> (heap w)) (log w))
    | inl e =>
        if except_matches [AttributeError; TypeError; ParseError] e
        then Returns None (World (req w) (heap w) (log w ++ [e]))
        else Raises e w
    end.
Proof.
  intros (Hd & Hct & Hce) Hit.
  unfold transformIterable.
  unfold bind at 1. unfold request_get at 1. unfold bind at 1. simpl.
  rewrite Hd.
  unfold bind at 1. unfold response_getHeader at 1. unfold bind at 1. simpl.
  rewrite Hct.
  unfold bind at 1. unfold response_getHeader at 1. unfold bind at 1. simpl.
  rewrite Hce.
  unfold try_except, parse_chunks.
  rewrite (bind_Returns _ _ _ _ _ Hit).
  destruct (map_exc normalize _) as [e|chunks]; simpl.
  { by unfold bind, lift, raise, logger_error, ret. }
  unfold bind at 1. simpl.
  destruct (getHTMLSerializer E chunks (pretty_print E) encoding) as [e|x]; simpl.
  { by unfold bind, lift, raise, logger_error, ret. }
  unfold cdata_fix, new, set_serializer, update, deref, store, request_set,
    modify_request, ret, bind; simpl.
  destruct (existsb (Py.contains CDATA) chunks); simpl.
  - rewrite lookup_insert_eq. simpl. by rewrite insert_insert_eq.
  - done.
Qed.

(** The three guards, each of which makes the stage a no-op. *)
Lemma ParseXML_disabled result encoding (w : world E) :
  get_flag flag_disabled (req w) = true →
  transformIterable E result encoding w = Returns None w.
Proof.
  intros Hd. unfold transformIterable, request_get, get_request, ret, bind.
  simpl. by rewrite Hd.
Qed.

Lemma ParseXML_not_html result encoding (w : world E) :
  not_html (response_headers (req w) !! "Content-Type") = true →
  transformIterable E result encoding w = Returns None w.
Proof.
  intros Hct.
  unfold transformIterable, request_get, response_getHeader, get_request, ret.
  unfold bind at 1 2 3 4. simpl.
  destruct (get_flag flag_disabled (req w)); [done|]. by rewrite Hct.
Qed.

Lemma ParseXML_compressed result encoding (w : world E) :
  is_compressed (response_headers (req w) !! "Content-Encoding") = true →
  transformIterable E result encoding w = Returns None w.
Proof.
  intros Hce.
  unfold transformIterable, request_get, response_getHeader, get_request, ret.
  unfold bind at 1 2 3 4 5 6. simpl.
  destruct (get_flag flag_disabled (req w)); [done|].
  destruct (not_html _); [done|]. by rewrite Hce.
Qed.

(** The stage tells the guards apart from nothing else: it is a no-op on
    every request that a guard stops. *)
Lemma ParseXML_guard_stops result encoding (w : world E) :
  ¬ parse_guards_pass w →
  transformIterable E result encoding w = Returns None w.
Proof.
  intros Hg.
  destruct (get_flag flag_disabled (req w)) eqn:Hd;
    [by apply ParseXML_disabled|].
  destruct (not_html (response_headers (req w) !! "Content-Type")) eqn:Hct;
    [by apply ParseXML_not_html|].
  destruct (is_compressed (response_headers (req w) !! "Content-Encoding")) eqn:Hce;
    [by apply ParseXML_compressed|].
  destruct Hg. by repeat split.
Qed.

(** C3 (as amended): once the guards have let the request through, a
    successful parse makes the stage set [enabled] and return a new
    [XMLSerializer]; a failure of class [AttributeError], [TypeError] or
    [etree.ParseError] makes it log the error and return nothing, with the
    request and the objects as they were; a failure of another class is
    raised to the caller, with the world as it was. *)
Theorem ParseXML_success_or_failure result encoding (w : world E) items :
  parse_guards_pass w →
  iterate result w = Returns items w →
  (∀ chunks x, parse_chunks E items encoding = inr (chunks, x) →
     ∃ l w',
       transformIterable E result encoding w = Returns (Some (Parsed l)) w' ∧
       get_flag flag_enabled (req w') = true ∧
       heap w !! l = None ∧
       heap w' = <[l := cdata_fix chunks x]> (heap w) ∧
       log w' = log w) ∧
  (∀ e, parse_chunks E items encoding = inl e →
     except_matches [AttributeError; TypeError; ParseError] e = true →
     ∃ w',
       transformIterable E result encoding w = Returns None w' ∧
       req w' = req w ∧ heap w' = heap w ∧ log w' = log w ++ [e]) ∧
  (∀ e, parse_chunks E items encoding = inl e →
     except_matches [AttributeError; TypeError; ParseError] e = false →
     transformIterable E result encoding w = Raises e w).
Proof.
  intros Hg Hit. rewrite (ParseXML_guarded _ _ _ _ Hg Hit).
  repeat split.
  - intros chunks x ->. eexists _, _. split; [done|]. simpl.
    repeat split.
    + unfold get_flag, set_flag. simpl. by rewrite lookup_insert_eq.
    + apply not_elem_of_dom, is_fresh.
  - intros e -> ->. by eexists.
  - by intros e -> ->.
Qed.

(** C6: when the stage returns a result and one of the accepted,
    normalized chunks contains the marker of a CDATA section, the result
    is an [XMLSerializer] whose serializer is [html.tostring]. *)
Theorem ParseXML_cdata_html_tostring result encoding (w w' : world E) items chunks v :
  iterate result w = Returns items w →
  map_exc normalize (filter (λ i, truthy i = true) items) = inr chunks →
  (∃ c, c ∈ chunks ∧ Py.contains CDATA c = true) →
  transformIterable E result encoding w = Returns (Some v) w' →
  ∃ l x, v = Parsed l ∧ heap w' !! l = Some x ∧ serializer x = html_tostring.
Proof.
  intros Hit Hchunks (c & Hc & Hcd) Hrun.
  destruct (decide (get_flag flag_disabled (req w) = false ∧
                    not_html (response_headers (req w) !! "Content-Type") = false ∧
                    is_compressed (response_headers (req w) !! "Content-Encoding") = false))
    as [Hg|Hg].
  2:{ by rewrite (ParseXML_guard_stops _ _ _ Hg) in Hrun. }
  rewrite (ParseXML_guarded _ _ _ _ Hg Hit) in Hrun.
  unfold parse_chunks in Hrun. rewrite Hchunks in Hrun. simpl in Hrun.
  destruct (getHTMLSerializer E chunks (pretty_print E) encoding) as [e|x];
    simpl in Hrun.
  { by destruct (_ || _). }
  injection Hrun as <- <-.
  eexists _, _. split; [done|]. simpl. rewrite lookup_insert_eq.
  split; [done|]. unfold cdata_fix.
  assert (existsb (Py.contains CDATA) chunks = true) as ->; [|done].
  apply existsb_exists. exists c. split; [|done]. by apply list_elem_of_In.
Qed.

End ParseXMLFacts.

(** ** The stages behind the [enabled] flag *)

Section Gated.
Context (E : Env).

Lemma MergePanels_not_enabled result encoding (w : world E) :
  get_flag flag_enabled (req w) = false →
  MergePanels.transformIterable E result encoding w = Returns None w.
Proof.
  intros He. unfold MergePanels.transformIterable, request_get, get_request, ret, bind.
  simpl. by rewrite He.
Qed.

Lemma MergePanels_not_serializer items encoding (w : world E) :
  MergePanels.transformIterable E (Chunks items) encoding w = Returns None w.
Proof.
  unfold MergePanels.transformIterable, request_get, get_request, ret, bind.
  simpl. by destruct (get_flag _ _).
Qed.

Lemma IncludeTiles_not_enabled result encoding (w : world E) :
  get_flag flag_enabled (req w) = false →
  IncludeTiles.transformIterable E result encoding w = Returns None w.
Proof.
  intros He. unfold IncludeTiles.transformIterable, request_get, get_request, ret, bind.
  simpl. by rewrite He.
Qed.

Lemma IncludeTiles_not_serializer items encoding (w : world E) :
  IncludeTiles.transformIterable E (Chunks items) encoding w = Returns None w.
Proof.
  unfold IncludeTiles.transformIterable, request_get, get_request, ret, bind.
  simpl. by destruct (get_flag _ _).
Qed.

(** C8: when the stage is enabled, is given an [XMLSerializer], and the
    layout-merge collaborator returns [None], the stage returns nothing
    and the world is as it was: the serializer object with its tree and
    its serializer, and every flag, [merged] among them. *)
Theorem MergePanels_no_layout (l : loc) (x : XMLSerializer (Tree E)) encoding
    (w : world E) :
  get_flag flag_enabled (req w) = true →
  heap w !! l = Some x →
  panel_merge E (req w) (tree x) = inr None →
  MergePanels.transformIterable E (Serializer l) encoding w = Returns None w ∧
  heap w !! l = Some x ∧
  get_flag flag_merged (req (final (MergePanels.transformIterable E (Serializer l) encoding w)))
    = get_flag flag_merged (req w).
Proof.
  intros He Hl Hm.
  assert (MergePanels.transformIterable E (Serializer l) encoding w = Returns None w)
    as Hrun.
  { unfold MergePanels.transformIterable, request_get, get_request, deref, lift, ret, bind.
    simpl. rewrite He. simpl. rewrite Hl, Hm. done. }
  by rewrite Hrun.
Qed.

(** What a successful merge does, for comparison. *)
Lemma MergePanels_merged (l : loc) (x : XMLSerializer (Tree E)) t encoding
    (w : world E) :
  get_flag flag_enabled (req w) = true →
  heap w !! l = Some x →
  panel_merge E (req w) (tree x) = inr (Some t) →
  MergePanels.transformIterable E (Serializer l) encoding w =
    Returns (Some (Parsed l))
      (World (set_flag flag_merged true (req w))
         (<[l := mkXMLSerializer t
                   (if MergePanels.not_xhtml (doctype E t)
                    then html_tostring else serializer x)
                   (xs_pretty_print x) (xs_encoding x)]> (heap w))
         (log w)).
Proof.
  intros He Hl Hm.
  unfold MergePanels.transformIterable, request_get, get_request, lift, ret.
  unfold bind at 1 2. simpl. rewrite He. simpl.
  unfold bind at 1. unfold deref at 1. rewrite Hl.
  unfold bind at 1 2. simpl. rewrite Hm.
  unfold set_tree, set_serializer, update, request_set, modify_request, deref,
    store, ret, bind. simpl.
  rewrite Hl. simpl. rewrite lookup_insert_eq. simpl.
  destruct (MergePanels.not_xhtml (doctype E t)); simpl.
  - rewrite lookup_insert_eq. simpl. by rewrite insert_insert_eq.
  - done.
Qed.

End Gated.

(** ** The Edge-Directive stage *)

Section Edge.
Context (E : Env).

Lemma esi_off_run (w : world E) :
  ESIRender.esi_off E w = Returns (negb (esi_on w)) w.
Proof. done. Qed.

Lemma ESIRender_off result encoding (w : world E) :
  esi_on w = false →
  Chain.invoke E Chain.esirender result encoding w = Returns None w.
Proof.
  intros Hoff. destruct result; simpl;
    unfold ESIRender.transformBytes, ESIRender.transformUnicode,
      ESIRender.transformIterable;
    unfold bind at 1; rewrite esi_off_run, Hoff; done.
Qed.

Lemma ESIRender_transformBytes_on b encoding (w : world E) :
  esi_on w = true →
  ESIRender.transformBytes E b encoding w =
    match esi_substituteESILinks E (Iter (Chunks [ItemBytes b])) with
    | inr r => Returns (Some r) w
    | inl e => Raises e w
    end.
Proof.
  intros Hon. unfold ESIRender.transformBytes.
  unfold bind at 1. rewrite esi_off_run, Hon. simpl.
  unfold bind, lift, raise, ret. by destruct (esi_substituteESILinks _ _).
Qed.

Lemma ESIRender_transformUnicode_on t encoding (w : world E) :
  esi_on w = true →
  ESIRender.transformUnicode E t encoding w =
    match esi_substituteESILinks E
            (Iter (Chunks [ItemBytes (encode_ignore encoding t)])) with
    | inr r => Returns (Some r) w
    | inl e => Raises e w
    end.
Proof.
  intros Hon. unfold ESIRender.transformUnicode.
  unfold bind at 1. rewrite esi_off_run, Hon. simpl.
  unfold bind, lift, raise, ret. by destruct (esi_substituteESILinks _ _).
Qed.

(** Encoding with error mode ["ignore"] is the strict encoding of the
    text without its characters that have no encoding, and never fails. *)
Lemma encode_ignore_drops enc (t : text) :
  encode_strict enc (filter (λ c, is_Some (encode_char enc c)) t)
  = Some (encode_ignore enc t).
Proof.
  unfold encode_strict, encode_ignore.
  induction t as [|c t IH]; [done|].
  rewrite filter_cons. simpl omap.
  destruct (encode_char enc c) as [bs|] eqn:Hc.
  - rewrite decide_True by done.
    simpl. rewrite Hc. simpl.
    destruct (mapM (encode_char enc) (filter _ t)) as [bss|]; simpl in IH |- *;
      [|done].
    by injection IH as ->.
  - rewrite decide_False; [done|]. by intros [? ?].
Qed.

(** In strict mode the same text is refused as soon as one character has
    no encoding. *)
Lemma encode_strict_refuses enc (t : text) c :
  c ∈ t → encode_char enc c = None → encode_strict enc t = None.
Proof.
  intros Hin Hc. unfold encode_strict.
  destruct (mapM (encode_char enc) t) as [bss|] eqn:Hm; [|done].
  apply mapM_Some in Hm.
  apply list_elem_of_lookup in Hin as [i Hi].
  destruct (Forall2_lookup_l _ _ _ _ _ Hm Hi) as (bs & _ & Hbs). congruence.
Qed.

(** C10: with the edge header ["true"], [transformUnicode] hands to the
    substitution collaborator the text encoded with error mode
    ["ignore"], which is the encoding of the text without the characters
    that the target encoding cannot represent; the encoding step raises
    nothing, the outcome is the collaborator's, and the response headers,
    [X-Esi] among them, are as they were. *)
Theorem ESIRender_transformUnicode_ignore (t : text) encoding (w : world E) :
  esi_on w = true →
  ESIRender.transformUnicode E t encoding w =
    match esi_substituteESILinks E (Iter (Chunks [ItemBytes (encode_ignore encoding t)])) with
    | inr r => Returns (Some r) w
    | inl e => Raises e w
    end ∧
  encode_strict encoding (filter (λ c, is_Some (encode_char encoding c)) t)
    = Some (encode_ignore encoding t) ∧
  response_headers (req (final (ESIRender.transformUnicode E t encoding w)))
    = response_headers (req w).
Proof.
  intros Hon. pose proof (ESIRender_transformUnicode_on t encoding w Hon) as Hrun.
  split; [done|]. split; [apply encode_ignore_drops|].
  rewrite Hrun. by destruct (esi_substituteESILinks _ _).
Qed.

Lemma ESIRender_transformIterable_on result encoding (w : world E) s :
  esi_on w = true →
  py_str result w = Returns s w →
  ESIRender.transformIterable E result encoding w =
    match esi_substituteESILinks E (Text s) with
    | inr t =>
        Returns (Some t)
          (if bool_decide (t ≠ Text s)
           then World (set_response_header "X-Esi" "1" (req w)) (heap w) (log w)
           else w)
    | inl e => Raises e w
    end.
Proof.
  intros Hon Hs. unfold ESIRender.transformIterable.
  unfold bind at 1. rewrite esi_off_run, Hon. simpl.
  rewrite (bind_Returns _ _ _ _ _ Hs).
  unfold bind at 1.
  destruct (esi_substituteESILinks E (Text s)) as [e|t]; [done|]. simpl.
  unfold ret at 1.
  destruct (bool_decide (t ≠ Text s)); done.
Qed.

(** C4: on an iterable, the stage returns nothing and leaves the world,
    hence the response headers, as it was unless the edge header is
    ["true"] in any letter case; when it is, the stage returns what the
    substitution collaborator makes of [str(result)], and sets the
    response header [X-Esi] to ["1"] if that differs from [str(result)]
    and writes nothing if it does not. *)
Theorem ESIRender_transformIterable_header result encoding (w : world E) :
  (Py.lower (default "false" (environ (req w) !! ESI_HEADER E)) ≠ "true" →
     ESIRender.transformIterable E result encoding w = Returns None w) ∧
  (Py.lower (default "false" (environ (req w) !! ESI_HEADER E)) = "true" →
     ∀ s t,
       py_str result w = Returns s w →
       esi_substituteESILinks E (Text s) = inr t →
       ∃ w',
         ESIRender.transformIterable E result encoding w = Returns (Some t) w' ∧
         heap w' = heap w ∧ log w' = log w ∧
         other (req w') = other (req w) ∧ environ (req w') = environ (req w) ∧
         (t ≠ Text s →
            response_headers (req w') = <["X-Esi" := "1"]> (response_headers (req w))) ∧
         (t = Text s → w' = w)).
Proof.
  split.
  - intros Hoff. apply (ESIRender_off (Iter result) encoding).
    unfold esi_on. by rewrite bool_decide_false.
  - intros Hon s t Hs Ht.
    rewrite (ESIRender_transformIterable_on _ _ _ s), Ht; [|by apply bool_decide_true|done].
    eexists. split; [done|].
    destruct (decide (t = Text s)) as [->|Hne].
    + rewrite bool_decide_false by (by intros ?). by repeat split.
    + rewrite bool_decide_true by done. simpl. by repeat split.
Qed.

End Edge.

(** ** Flags *)

Section Flags.
Context (E : Env).

Lemma flags_grow_refl r : flags_grow r r.
Proof. intros k. by left. Qed.

Lemma flags_grow_trans r1 r2 r3 :
  flags_grow r1 r2 → flags_grow r2 r3 → flags_grow r1 r3.
Proof.
  intros H12 H23 k. destruct (H23 k) as [-> | ->]; [apply H12|by right].
Qed.

Lemma flags_grow_set k r : flags_grow r (set_flag k true r).
Proof.
  intros k'. unfold set_flag. simpl.
  destruct (decide (k = k')) as [->|Hne].
  - right. apply lookup_insert_eq.
  - left. by apply lookup_insert_ne.
Qed.

Lemma flags_grow_true r r' k :
  flags_grow r r' → get_flag k r = true → get_flag k r' = true.
Proof.
  unfold get_flag. intros Hg Hk. by destruct (Hg k) as [-> | ->].
Qed.

Lemma monotone_never_resets {A} (m : M E A) : monotone m → never_resets m.
Proof. intros Hm w k. apply flags_grow_true, Hm. Qed.

Lemma monotone_ret {A} (a : A) : monotone (ret (E:=E) a).
Proof. intros w. apply flags_grow_refl. Qed.

Lemma monotone_raise {A} e : monotone (raise (E:=E) (A:=A) e).
Proof. intros w. apply flags_grow_refl. Qed.

Lemma monotone_lift {A} (x : exc + A) : monotone (lift (E:=E) x).
Proof. destruct x; [apply monotone_raise|apply monotone_ret]. Qed.

Lemma monotone_bind {A B} (m : M E A) (f : A → M E B) :
  monotone m → (∀ a, monotone (f a)) → monotone (bind m f).
Proof.
  intros Hm Hf w. unfold bind. specialize (Hm w).
  destruct (m w) as [a w'|e w']; simpl in *; [|done].
  eapply flags_grow_trans; [done|apply Hf].
Qed.

Lemma monotone_try_except {A} (body : M E A) classes handler :
  monotone body → (∀ e, monotone (handler e)) →
  monotone (try_except body classes handler).
Proof.
  intros Hb Hh w. unfold try_except. specialize (Hb w).
  destruct (body w) as [a w'|e w']; simpl in *; [done|].
  destruct (except_matches classes e); [|done].
  eapply flags_grow_trans; [done|apply Hh].
Qed.

Lemma monotone_get_request : monotone (get_request (E:=E)).
Proof. intros w. apply flags_grow_refl. Qed.

Lemma monotone_request_set k : monotone (request_set (E:=E) k true).
Proof. intros w. apply flags_grow_set. Qed.

Lemma monotone_response_setHeader name v : monotone (response_setHeader (E:=E) name v).
Proof. intros w k. by left. Qed.

Lemma monotone_logger_error e : monotone (logger_error (E:=E) e).
Proof. intros w. apply flags_grow_refl. Qed.

Lemma monotone_deref l : monotone (deref (E:=E) l).
Proof. intros w. unfold deref. destruct (heap w !! l); apply flags_grow_refl. Qed.

Lemma monotone_new x : monotone (new (E:=E) x).
Proof. intros w. apply flags_grow_refl. Qed.

Lemma monotone_store l x : monotone (store (E:=E) l x).
Proof. intros w. apply flags_grow_refl. Qed.

Create HintDb mono.

#[local] Hint Resolve monotone_ret monotone_raise monotone_lift monotone_get_request
  monotone_request_set monotone_response_setHeader monotone_logger_error
  monotone_deref monotone_new monotone_store : mono.

(** One step of the proof that a computation built from the primitives is
    monotone. *)
Ltac mono_step :=
  first
    [ apply monotone_bind; [|intros ?]
    | apply monotone_try_except; [|intros ?]
    | match goal with
      | |- monotone (if ?c then _ else _) => destruct c
      | |- monotone (match ?x with _ => _ end) => destruct x
      end
    | solve [auto with mono] ].

Ltac mono :=
  unfold request_get, request_getHeader, response_getHeader, set_tree,
    set_serializer, update, iterate, py_str;
  repeat mono_step.

Lemma monotone_DisableParsing encoding :
  (∀ b, monotone (DisableParsing.transformBytes E b encoding)) ∧
  (∀ t, monotone (DisableParsing.transformUnicode E t encoding)) ∧
  (∀ it, monotone (DisableParsing.transformIterable E it encoding)).
Proof.
  repeat split; intros ?;
    unfold DisableParsing.transformBytes, DisableParsing.transformUnicode,
      DisableParsing.transformIterable; mono.
Qed.

Lemma monotone_ParseXML it encoding :
  monotone (ParseXML.transformIterable E it encoding).
Proof. unfold ParseXML.transformIterable. mono. Qed.

Lemma monotone_MergePanels it encoding :
  monotone (MergePanels.transformIterable E it encoding).
Proof. unfold MergePanels.transformIterable. mono. Qed.

Lemma monotone_IncludeTiles it encoding :
  monotone (IncludeTiles.transformIterable E it encoding).
Proof. unfold IncludeTiles.transformIterable. mono. Qed.

Lemma monotone_ESIRender encoding :
  (∀ b, monotone (ESIRender.transformBytes E b encoding)) ∧
  (∀ t, monotone (ESIRender.transformUnicode E t encoding)) ∧
  (∀ it, monotone (ESIRender.transformIterable E it encoding)).
Proof.
  repeat split; intros ?;
    unfold ESIRender.transformBytes, ESIRender.transformUnicode,
      ESIRender.transformIterable, ESIRender.esi_off; mono.
Qed.

Lemma monotone_entry_points (s : Chain.stage) encoding :
  (∀ b, monotone (Chain.transformBytes E s b encoding)) ∧
  (∀ t, monotone (Chain.transformUnicode E s t encoding)) ∧
  (∀ it, monotone (Chain.transformIterable E s it encoding)).
Proof.
  destruct (monotone_DisableParsing encoding) as (Hd1 & Hd2 & Hd3).
  destruct (monotone_ESIRender encoding) as (He1 & He2 & He3).
  repeat split; intros x; destruct s; simpl; auto;
    try apply monotone_ret;
    try apply monotone_ParseXML;
    try apply monotone_MergePanels;
    try apply monotone_IncludeTiles.
Qed.

(** C9: whichever stage runs and through whichever entry point, and
    whether it returns or raises, every flag ends with the value it had or
    with the value true, so a flag that is true is never made false. *)
Theorem flags_monotone (s : Chain.stage) encoding :
  (∀ b, monotone (Chain.transformBytes E s b encoding) ∧
        never_resets (Chain.transformBytes E s b encoding)) ∧
  (∀ t, monotone (Chain.transformUnicode E s t encoding) ∧
        never_resets (Chain.transformUnicode E s t encoding)) ∧
  (∀ it, monotone (Chain.transformIterable E s it encoding) ∧
         never_resets (Chain.transformIterable E s it encoding)).
Proof.
  destruct (monotone_entry_points s encoding) as (Hb & Ht & Hi).
  repeat split; auto using monotone_never_resets.
Qed.

(** The same holds of a whole execution of the chain. *)
Lemma monotone_invoke s result encoding : monotone (Chain.invoke E s result encoding).
Proof.
  destruct (monotone_entry_points s encoding) as (Hb & Ht & Hi).
  destruct result; simpl; [apply Hb|apply Ht|apply Hi].
Qed.

Lemma monotone_run stages result encoding :
  monotone (Chain.run E stages result encoding).
Proof.
  revert result. induction stages as [|s stages IH]; intros result; simpl.
  - apply monotone_ret.
  - apply monotone_bind; [apply monotone_invoke|intros r; apply IH].
Qed.

Lemma run_never_resets registered result encoding :
  never_resets (Chain.transform_chain E registered result encoding).
Proof. apply monotone_never_resets, monotone_run. Qed.

End Flags.

(** ** The bypass flag *)

Section Bypass.
Context (E : Env).

Lemma gated_stage_noop s result encoding (w : world E) :
  s ∈ [Chain.mergepanels; Chain.includetiles] →
  get_flag flag_enabled (req w) = false ∨ is_parsed result = false →
  Chain.invoke E s result encoding w = Returns None w.
Proof.
  intros Hs Hw.
  apply elem_of_cons in Hs as [-> | Hs];
    [|apply list_elem_of_singleton in Hs as ->].
  - destruct result as [b|t|[items|l]]; simpl; try done.
    + apply MergePanels_not_serializer.
    + destruct Hw as [He|Hp]; [by apply MergePanels_not_enabled|done].
  - destruct result as [b|t|[items|l]]; simpl; try done.
    + apply IncludeTiles_not_serializer.
    + destruct Hw as [He|Hp]; [by apply IncludeTiles_not_enabled|done].
Qed.

(** With [disabled] true and [enabled] false, the three stages of the
    composition do nothing, whatever the variant of the result. *)
Lemma bypassed_invoke_noop s result encoding (w : world E) :
  get_flag flag_disabled (req w) = true →
  get_flag flag_enabled (req w) = false →
  s ∈ [Chain.parsexml; Chain.mergepanels; Chain.includetiles] →
  Chain.invoke E s result encoding w = Returns None w.
Proof.
  intros Hd He Hs. apply elem_of_cons in Hs as [-> | Hs].
  - destruct result; simpl;
      unfold ParseXML.transformBytes, ParseXML.transformUnicode;
      by apply ParseXML_disabled.
  - apply gated_stage_noop; auto.
Qed.

(** C2: with [disabled] true and [enabled] false, each entry point of the
    Parse, Panel-Merge and Tile-Inclusion stages returns nothing and
    leaves the world (the result object and the flags) as it was, and the
    Edge-Directive stage, when the edge header is ["true"], gives the
    outcome of the substitution collaborator on the result. *)
Theorem bypass_flag_stops_composition encoding (w : world E) :
  get_flag flag_disabled (req w) = true →
  get_flag flag_enabled (req w) = false →
  (∀ s, s ∈ [Chain.parsexml; Chain.mergepanels; Chain.includetiles] →
     (∀ b, Chain.transformBytes E s b encoding w = Returns None w) ∧
     (∀ t, Chain.transformUnicode E s t encoding w = Returns None w) ∧
     (∀ it, Chain.transformIterable E s it encoding w = Returns None w)) ∧
  (esi_on w = true →
     (∀ b, ESIRender.transformBytes E b encoding w =
        match esi_substituteESILinks E (Iter (Chunks [ItemBytes b])) with
        | inr r => Returns (Some r) w
        | inl e => Raises e w
        end) ∧
     (∀ t, ESIRender.transformUnicode E t encoding w =
        match esi_substituteESILinks E
                (Iter (Chunks [ItemBytes (encode_ignore encoding t)])) with
        | inr r => Returns (Some r) w
        | inl e => Raises e w
        end) ∧
     (∀ it s, py_str it w = Returns s w →
        ESIRender.transformIterable E it encoding w =
        match esi_substituteESILinks E (Text s) with
        | inr r =>
            Returns (Some r)
              (if bool_decide (r ≠ Text s)
               then World (set_response_header "X-Esi" "1" (req w)) (heap w) (log w)
               else w)
        | inl e => Raises e w
        end)).
Proof.
  intros Hd He. split.
  - intros s Hs. repeat split; intros x.
    + by apply (bypassed_invoke_noop s (Bytes x)).
    + by apply (bypassed_invoke_noop s (Text x)).
    + by apply (bypassed_invoke_noop s (Iter x)).
  - intros Hon. repeat split.
    + intros b. by apply ESIRender_transformBytes_on.
    + intros t. by apply ESIRender_transformUnicode_on.
    + intros it s Hs. by apply ESIRender_transformIterable_on.
Qed.

(** So the chain of a bypassed request is its Edge-Directive stage. *)
Lemma bypassed_chain_is_edge_stage result encoding (w : world E) :
  get_flag flag_disabled (req w) = true →
  get_flag flag_enabled (req w) = false →
  Chain.run E Chain.pipeline result encoding w
  = Chain.run E [Chain.esirender] result encoding w.
Proof.
  intros Hd He.
  pose proof (λ s, bypassed_invoke_noop s result encoding w Hd He) as Hinv.
  unfold Chain.pipeline. simpl Chain.run.
  rewrite (bind_Returns _ _ _ _ _ (Hinv Chain.parsexml ltac:(by left))). simpl.
  rewrite (bind_Returns _ _ _ _ _ (Hinv Chain.mergepanels ltac:(right; by left))). simpl.
  by rewrite (bind_Returns _ _ _ _ _
                (Hinv Chain.includetiles ltac:(right; right; by left))).
Qed.

End Bypass.

(** ** Responses that the Parse stage leaves alone *)

Section PassThrough.
Context (E : Env).

Lemma same_but_disabled_refl (w : world E) : same_but_disabled w w.
Proof. repeat split; auto. Qed.

Lemma same_but_disabled_set (w : world E) :
  same_but_disabled w (World (set_flag flag_disabled true (req w)) (heap w) (log w)).
Proof. repeat split; simpl; auto. Qed.

Lemma same_but_disabled_trans (w1 w2 w3 : world E) :
  same_but_disabled w1 w2 → same_but_disabled w2 w3 → same_but_disabled w1 w3.
Proof.
  intros (Hh1 & Hl1 & He1 & Hr1 & Ho1) (Hh2 & Hl2 & He2 & Hr2 & Ho2).
  repeat split; try congruence.
  destruct Ho2 as [-> | ->]; [done|].
  destruct Ho1 as [-> | ->]; [by right|].
  right. by rewrite insert_insert_eq.
Qed.

Lemma same_but_disabled_enabled (w w' : world E) :
  same_but_disabled w w' →
  get_flag flag_enabled (req w') = get_flag flag_enabled (req w).
Proof.
  intros (_ & _ & _ & _ & [Ho | Ho]); unfold get_flag; rewrite Ho; [done|].
  by rewrite lookup_insert_ne.
Qed.

Lemma same_but_disabled_esi_on (w w' : world E) :
  same_but_disabled w w' → esi_on w' = esi_on w.
Proof. intros (_ & _ & He & _). unfold esi_on. by rewrite He. Qed.

Lemma invoke_stopped s result encoding (w : world E) :
  ¬ parse_guards_pass w →
  esi_on w = false →
  get_flag flag_enabled (req w) = false ∨ is_parsed result = false →
  ∃ w', Chain.invoke E s result encoding w = Returns None w' ∧
        same_but_disabled w w' ∧ (s ≠ Chain.disableparsing → w' = w).
Proof.
  intros Hg Hoff Hen. destruct s.
  - exists (World (set_flag flag_disabled true (req w)) (heap w) (log w)).
    split; [by destruct result|]. split; [apply same_but_disabled_set|done].
  - exists w. split; [|split; [apply same_but_disabled_refl|done]].
    destruct result; simpl;
      unfold ParseXML.transformBytes, ParseXML.transformUnicode;
      by apply ParseXML_guard_stops.
  - exists w. split; [|split; [apply same_but_disabled_refl|done]].
    apply gated_stage_noop; [by left|done].
  - exists w. split; [|split; [apply same_but_disabled_refl|done]].
    apply gated_stage_noop; [right; by left|done].
  - exists w. split; [|split; [apply same_but_disabled_refl|done]].
    by apply ESIRender_off.
Qed.

(** The requests on which no stage other than the bypass stage does
    anything: the Parse stage is stopped by a guard on the response
    headers, the edge header is not ["true"], and the gated stages find
    [enabled] false or a result that is not an [XMLSerializer]. *)
Lemma run_stopped stages result encoding (w : world E) :
  ParseXML.not_html (response_headers (req w) !! "Content-Type") = true ∨
  ParseXML.is_compressed (response_headers (req w) !! "Content-Encoding") = true →
  esi_on w = false →
  get_flag flag_enabled (req w) = false ∨ is_parsed result = false →
  ∃ w', Chain.run E stages result encoding w = Returns result w' ∧
        same_but_disabled w w' ∧ (Chain.disableparsing ∉ stages → w' = w).
Proof.
  revert w. induction stages as [|s stages IH]; intros w Hstop Hoff Hen.
  - exists w. split; [done|]. split; [apply same_but_disabled_refl|done].
  - assert (¬ parse_guards_pass w) as Hg.
    { intros (_ & Hct & Hce). destruct Hstop; congruence. }
    destruct (invoke_stopped s result encoding w Hg Hoff Hen) as (w1 & Hrun & Hsame & Hw1).
    destruct (IH w1) as (w2 & Hrun2 & Hsame2 & Hw2).
    { destruct Hsame as (_ & _ & _ & Hr & _). by rewrite Hr. }
    { by rewrite (same_but_disabled_esi_on w w1). }
    { rewrite (same_but_disabled_enabled w w1); done. }
    exists w2. split; [|split].
    + simpl. by rewrite (bind_Returns _ _ _ _ _ Hrun).
    + by eapply same_but_disabled_trans.
    + intros Hnotin. apply not_elem_of_cons in Hnotin as [Hne Hnotin].
      rewrite Hw2 by done. by apply Hw1.
Qed.

(** In particular for the chain over the stages as registered. *)
Lemma transform_chain_stopped registered result encoding (w : world E) :
  ParseXML.not_html (response_headers (req w) !! "Content-Type") = true ∨
  ParseXML.is_compressed (response_headers (req w) !! "Content-Encoding") = true →
  esi_on w = false →
  get_flag flag_enabled (req w) = false ∨ is_parsed result = false →
  ∃ w', Chain.transform_chain E registered result encoding w = Returns result w' ∧
        same_but_disabled w w'.
Proof.
  intros Hstop Hoff Hen.
  destruct (run_stopped (Chain.sort_stages registered) result encoding w Hstop Hoff Hen)
    as (w' & Hrun & Hsame & _).
  by exists w'.
Qed.

(** C1 (as amended): when the response has the content-encoding ["zip"],
    ["deflate"] or ["compress"], the Parse stage returns nothing and
    leaves the world as it was; and if moreover the edge header is not
    ["true"], and [enabled] is false or the input is not an
    [XMLSerializer], the chain over any stages returns its input, in a
    world in which nothing but the bypass flag can have changed. *)
Theorem compressed_response_passes_through e stages result encoding (w : world E) :
  e ∈ ["zip"; "deflate"; "compress"] →
  response_headers (req w) !! "Content-Encoding" = Some e →
  (∀ it, ParseXML.transformIterable E it encoding w = Returns None w) ∧
  (esi_on w = false →
   get_flag flag_enabled (req w) = false ∨ is_parsed result = false →
   ∃ w', Chain.run E stages result encoding w = Returns result w' ∧
         same_but_disabled w w' ∧ (Chain.disableparsing ∉ stages → w' = w)).
Proof.
  intros He Hce.
  assert (ParseXML.is_compressed (response_headers (req w) !! "Content-Encoding") = true)
    as Hc.
  { rewrite Hce. unfold ParseXML.is_compressed.
    rewrite (bool_decide_true (e ∈ _)) by done.
    rewrite (bool_decide_false (e = "")); [done|]. intros ->.
    repeat (apply elem_of_cons in He as [He|He]; [done|]).
    by apply elem_of_nil in He. }
  split.
  - intros it. by apply ParseXML_compressed.
  - intros Hoff Hen. apply run_stopped; auto.
Qed.

(** C7 (as amended): when the response has no [Content-Type] or one that
    does not start with ["text/html"], the Parse stage returns nothing and
    leaves the world as it was; and if moreover the edge header is not
    ["true"], and [enabled] is false or the input is not an
    [XMLSerializer], the chain over any stages returns its input, in a
    world in which nothing but the bypass flag can have changed. *)
Theorem non_html_response_passes_through stages result encoding (w : world E) :
  (response_headers (req w) !! "Content-Type" = None ∨
   ∃ ct, response_headers (req w) !! "Content-Type" = Some ct ∧
         Py.str_startswith "text/html" ct = false) →
  (∀ it, ParseXML.transformIterable E it encoding w = Returns None w) ∧
  (esi_on w = false →
   get_flag flag_enabled (req w) = false ∨ is_parsed result = false →
   ∃ w', Chain.run E stages result encoding w = Returns result w' ∧
         same_but_disabled w w' ∧ (Chain.disableparsing ∉ stages → w' = w)).
Proof.
  intros Hct.
  assert (ParseXML.not_html (response_headers (req w) !! "Content-Type") = true)
    as Hn.
  { destruct Hct as [-> | (ct & -> & Hct)]; [done|]. simpl. by rewrite Hct. }
  split.
  - intros it. by apply ParseXML_not_html.
  - intros Hoff Hen. apply run_stopped; auto.
Qed.

End PassThrough.

(** ** The properties on concrete requests *)

Section Concrete.
Import Demo.

(** A response with [Content-Encoding: deflate] on a request whose edge
    header is ["True"]: the Parse stage returns nothing, and the chain
    returns the string that the Edge-Directive stage made of the input,
    not the input. *)
Lemma compressed_response_rewritten_by_edge_stage :
  let w := fresh_world edge deflated in
  let input := Iter (Chunks [ItemBytes (Py.b "<p>*</p>")]) in
  ParseXML.is_compressed (response_headers (req w) !! "Content-Encoding") = true ∧
  ParseXML.transformIterable env (Chunks [ItemBytes (Py.b "<p>*</p>")]) utf8 w
    = Returns None w ∧
  Chain.run env Chain.pipeline input utf8 w
    = Returns (Text (text_of_string "[b'<p>@</p>']"))
        (World (set_response_header "X-Esi" "1" (req w)) ∅ []) ∧
  Text (text_of_string "[b'<p>@</p>']") ≠ input.
Proof. repeat split; by vm_compute. Qed.

Lemma compressed_response_witness :
  let w := fresh_world [] deflated in
  let input := Iter (Chunks [ItemBytes (Py.b "<p>*</p>")]) in
  (∀ it, ParseXML.transformIterable env it utf8 w = Returns None w) ∧
  ∃ w', Chain.run env Chain.pipeline input utf8 w = Returns input w' ∧
        same_but_disabled w w' ∧
        (Chain.disableparsing ∉ Chain.pipeline → w' = w).
Proof.
  intros w input.
  destruct (compressed_response_passes_through env "deflate" Chain.pipeline
              input utf8 w) as [H1 H2].
  - right. left.
  - reflexivity.
  - split; [exact H1|]. apply H2; [reflexivity|left; reflexivity].
Defined.

(** A response that is not HTML, on a request whose edge header is
    ["True"]: again the chain returns the string of the Edge-Directive
    stage. *)
Lemma non_html_response_rewritten_by_edge_stage :
  let w := fresh_world edge json in
  let input := Iter (Chunks [ItemBytes (Py.b "{*}")]) in
  ParseXML.not_html (response_headers (req w) !! "Content-Type") = true ∧
  ParseXML.transformIterable env (Chunks [ItemBytes (Py.b "{*}")]) utf8 w
    = Returns None w ∧
  Chain.run env Chain.pipeline input utf8 w
    = Returns (Text (text_of_string "[b'{@}']"))
        (World (set_response_header "X-Esi" "1" (req w)) ∅ []) ∧
  Text (text_of_string "[b'{@}']") ≠ input.
Proof. repeat split; by vm_compute. Qed.

Lemma non_html_response_witness :
  let w := fresh_world [] json in
  let input := Iter (Chunks [ItemBytes (Py.b "{*}")]) in
  (∀ it, ParseXML.transformIterable env it utf8 w = Returns None w) ∧
  ∃ w', Chain.run env Chain.pipeline input utf8 w = Returns input w' ∧
        same_but_disabled w w' ∧
        (Chain.disableparsing ∉ Chain.pipeline → w' = w).
Proof.
  intros w input.
  destruct (non_html_response_passes_through env Chain.pipeline input utf8 w)
    as [H1 H2].
  - right. exists "application/json". split; reflexivity.
  - split; [exact H1|]. apply H2; [reflexivity|left; reflexivity].
Defined.

Lemma bypass_flag_witness :
  let w := bypassed_world in
  ParseXML.transformBytes env (Py.b "<p>*</p>") utf8 w = Returns None w ∧
  MergePanels.transformIterable env (Serializer 1) utf8 w = Returns None w ∧
  IncludeTiles.transformIterable env (Serializer 1) utf8 w = Returns None w ∧
  ESIRender.transformBytes env (Py.b "<p>*</p>") utf8 w
    = Returns (Some (Bytes (Py.b "<p>@</p>"))) w.
Proof.
  intros w.
  destruct (bypass_flag_stops_composition env utf8 w) as [Hs He];
    [reflexivity|reflexivity|].
  destruct (Hs Chain.parsexml ltac:(left)) as (Hp & _ & _).
  destruct (Hs Chain.mergepanels ltac:(right; left)) as (_ & _ & Hm).
  destruct (Hs Chain.includetiles ltac:(right; right; left)) as (_ & _ & Ht).
  destruct (He eq_refl) as (Hb & _ & _).
  split; [exact (Hp (Py.b "<p>*</p>"))|].
  split; [exact (Hm (Serializer 1))|]. split; [exact (Ht (Serializer 1))|].
  rewrite Hb. reflexivity.
Defined.

(** A text chunk with a lone surrogate: the coercion to bytes fails with
    [UnicodeEncodeError], which the stage does not catch; the stage raises
    it, and neither returns nothing nor logs. *)
Lemma ParseXML_encode_error_is_raised :
  let w := fresh_world [] html in
  let e := Exc UnicodeEncodeError "surrogates not allowed" in
  parse_guards_pass w ∧
  parse_chunks env [ItemText [0xD800%N]] utf8 = inl e ∧
  ParseXML.transformUnicode env [0xD800%N] utf8 w = Raises e w ∧
  ¬ (∃ w', ParseXML.transformUnicode env [0xD800%N] utf8 w = Returns None w').
Proof.
  repeat split; try by vm_compute.
  intros [w' Hw']. by vm_compute in Hw'.
Qed.

Lemma ParseXML_success_witness :
  let w := fresh_world [] html in
  let items := [ItemBytes (Py.b "<p>a&#13;b</p>"); ItemBytes []] in
  ∃ l w',
    ParseXML.transformIterable env (Chunks items) utf8 w
      = Returns (Some (Parsed l)) w' ∧
    get_flag flag_enabled (req w') = true ∧
    heap w !! l = None ∧
    heap w' = <[l := cdata_fix [Py.b "<p>a" ++ [x0a] ++ Py.b "b</p>"]
                       (mkXMLSerializer (Py.b "<p>a" ++ [x0a] ++ Py.b "b</p>")
                          html_tostring false "utf-8")]> (heap w) ∧
    log w' = log w.
Proof.
  intros w items.
  destruct (ParseXML_success_or_failure env (Chunks items) utf8 w items)
    as (Hok & _ & _).
  - repeat split; reflexivity.
  - reflexivity.
  - apply Hok. reflexivity.
Defined.

(** An other-typed chunk: [re.sub] raises [TypeError], which the stage
    catches and logs. *)
Example ParseXML_type_error_is_logged :
  let w := fresh_world [] html in
  ParseXML.transformIterable env (Chunks [ItemOther true]) utf8 w
  = Returns None
      (World (req w) ∅ [Exc TypeError "expected string or bytes-like object"]).
Proof. by vm_compute. Qed.

(** A document that the parser rejects: the [XMLSyntaxError], an
    [etree.ParseError], is caught and logged. *)
Example ParseXML_syntax_error_is_logged :
  let w := fresh_world [] html in
  ParseXML.transformBytes env [x3c; x00] utf8 w
  = Returns None (World (req w) ∅ [Exc XMLSyntaxError "Document is empty"]).
Proof. by vm_compute. Qed.

(** An XHTML page with a CDATA section: the parser chose
    [etree.tostring], the stage replaces it by [html.tostring]. *)
Lemma ParseXML_cdata_witness :
  let w := fresh_world [] html in
  let doc := Py.b "<!DOCTYPE html PUBLIC XHTML><script><![CDATA[x]]></script>" in
  Demo.getHTMLSerializer [doc] false utf8
    = inr (mkXMLSerializer doc etree_tostring false "utf-8") ∧
  ∃ l x,
    Parsed 1 = Parsed l ∧
    heap (final (ParseXML.transformIterable env (Chunks [ItemBytes doc]) utf8 w)) !! l
      = Some x ∧
    serializer x = html_tostring.
Proof.
  intros w doc. split; [reflexivity|].
  apply (ParseXML_cdata_html_tostring env (Chunks [ItemBytes doc]) utf8 w _
           [ItemBytes doc] [doc]).
  - reflexivity.
  - reflexivity.
  - exists doc. split; [left|reflexivity].
  - reflexivity.
Defined.

Lemma MergePanels_no_layout_witness :
  MergePanels.transformIterable env (Serializer 1) utf8 parsed_world
    = Returns None parsed_world ∧
  heap parsed_world !! 1%positive = Some page ∧
  get_flag flag_merged
    (req (final (MergePanels.transformIterable env (Serializer 1) utf8 parsed_world)))
    = get_flag flag_merged (req parsed_world).
Proof.
  apply (MergePanels_no_layout env 1 page utf8 parsed_world); reflexivity.
Defined.

Lemma ESIRender_transformIterable_witness :
  let off := fresh_world [] html in
  let on := fresh_world edge html in
  let it := Chunks [ItemBytes (Py.b "<p>*</p>")] in
  ESIRender.transformIterable env it utf8 off = Returns None off ∧
  ∃ w',
    ESIRender.transformIterable env it utf8 on
      = Returns (Some (Text (text_of_string "[b'<p>@</p>']"))) w' ∧
    response_headers (req w') = <["X-Esi" := "1"]> (response_headers (req on)).
Proof.
  intros off on it. split.
  - apply (proj1 (ESIRender_transformIterable_header env it utf8 off)).
    intros H. discriminate H.
  - destruct (proj2 (ESIRender_transformIterable_header env it utf8 on) eq_refl
                (text_of_string "[b'<p>*</p>']")
                (Text (text_of_string "[b'<p>@</p>']")) eq_refl eq_refl)
      as (w' & Hrun & _ & _ & _ & _ & Hset & _).
    exists w'. split; [exact Hrun|]. apply Hset. intros H. discriminate H.
Defined.

(** A text with a character that ASCII cannot represent. *)
Lemma ESIRender_transformUnicode_witness :
  let w := fresh_world edge html in
  let t := [0x63; 0xE9; 0x2A]%N in
  encode_strict ascii_codec t = None ∧
  encode_ignore ascii_codec t = Py.b "c*" ∧
  ESIRender.transformUnicode env t ascii_codec w
    = Returns (Some (Bytes (Py.b "c@"))) w ∧
  response_headers (req (final (ESIRender.transformUnicode env t ascii_codec w)))
    = response_headers (req w).
Proof.
  intros w t.
  destruct (ESIRender_transformUnicode_ignore env t ascii_codec w eq_refl)
    as (Hrun & _ & Hh).
  split; [reflexivity|]. split; [reflexivity|]. split; [|exact Hh].
  rewrite Hrun. reflexivity.
Defined.

(** A response with [Content-Encoding: gzip] is not among those that the
    Parse stage leaves alone. *)
Example gzip_response_is_parsed :
  let w := fresh_world [] gzipped in
  ParseXML.is_compressed (Some "gzip") = false ∧
  ∃ w', ParseXML.transformBytes env (Py.b "<p/>") utf8 w
        = Returns (Some (Parsed 1)) w'.
Proof. split; [done|]. eexists. by vm_compute. Qed.

(** The stages in the order of their priorities, whatever the order of
    registration; stages of one priority keep their order. *)
Example sort_stages_pipeline :
  Chain.sort_stages
    [Chain.esirender; Chain.includetiles; Chain.disableparsing;
     Chain.mergepanels; Chain.parsexml]
  = Chain.pipeline_bypassed.
Proof. reflexivity. Qed.

(** A whole chain on an HTML page with a layout, a tile and a placeholder
    link, the edge header being ["True"]. *)
Example chain_composes_page :
  let w := fresh_world edge html in
  ∃ w',
    Chain.transform_chain env Chain.pipeline
      (Iter (Chunks [ItemBytes (Py.b "<p data-layout>a&#13;b<tile/>*</p>")])) utf8 w
    = Returns
        (Text (text_of_string "<!DOCTYPE html><html><p data-layout>a"
               ++ [10%N]
               ++ text_of_string "b<p>tile</p>@</p></html>"))
        w' ∧
    map_to_list (other (req w')) = [(flag_merged, true); (flag_enabled, true)] ∧
    response_headers (req w') !! "X-Esi" = Some "1".
Proof. eexists. repeat split; by vm_compute. Qed.

(** Why the pass-through properties ask for [enabled] false or an input
    that is not parsed: on a request whose page has been parsed, a
    compressed response still has its tiles included. *)
Example compressed_response_of_parsed_page :
  let w := World (Request {[flag_enabled := true]} ∅ (list_to_map deflated))
             {[1%positive := mkXMLSerializer (Py.b "<tile/>") html_tostring false "utf-8"]} [] in
  ∃ w', Chain.run env Chain.pipeline (Parsed 1) utf8 w = Returns (Parsed 1) w' ∧
        tree <$> heap w' !! 1%positive = Some (Py.b "<p>tile</p>").
Proof. eexists. split; by vm_compute. Qed.

End Concrete.

(** * Further properties of the stages *)

(** ** Panel-Merge and Tile-Inclusion at work *)

Section Composition.
Context (E : Env).

(** What [MergePanels.transformIterable] does once its guard has let the
    result through. *)
Lemma MergePanels_run (l : loc) (x : XMLSerializer (Tree E)) encoding (w : world E) :
  get_flag flag_enabled (req w) = true →
  heap w !! l = Some x →
  MergePanels.transformIterable E (Serializer l) encoding w =
    match panel_merge E (req w) (tree x) with
    | inl e => Raises e w
    | inr None => Returns None w
    | inr (Some t) =>
        Returns (Some (Parsed l))
          (World (set_flag flag_merged true (req w))
             (<[l := mkXMLSerializer t
                       (if MergePanels.not_xhtml (doctype E t)
                        then html_tostring else serializer x)
                       (xs_pretty_print x) (xs_encoding x)]> (heap w))
             (log w))
    end.
Proof.
  intros He Hl.
  destruct (panel_merge E (req w) (tree x)) as [e|[t|]] eqn:Hm.
  - unfold MergePanels.transformIterable, request_get, get_request, deref, lift,
      raise, ret, bind.
    simpl. rewrite He. simpl. by rewrite Hl, Hm.
  - by apply MergePanels_merged.
  - unfold MergePanels.transformIterable, request_get, get_request, deref, lift,
      ret, bind.
    simpl. rewrite He. simpl. by rewrite Hl, Hm.
Qed.

(** What [IncludeTiles.transformIterable] does once its guard has let the
    result through. *)
Lemma IncludeTiles_run (l : loc) (x : XMLSerializer (Tree E)) encoding (w : world E) :
  get_flag flag_enabled (req w) = true →
  heap w !! l = Some x →
  IncludeTiles.transformIterable E (Serializer l) encoding w =
    match tiles_renderTiles E (req w) (tree x) with
    | inl e => Raises e w
    | inr t =>
        Returns (Some (Parsed l))
          (World (req w) (<[l := with_tree t x]> (heap w)) (log w))
    end.
Proof.
  intros He Hl.
  unfold IncludeTiles.transformIterable, request_get, get_request, lift, ret.
  unfold bind at 1 2. simpl. rewrite He. simpl.
  unfold bind at 1. unfold deref at 1. rewrite Hl.
  unfold bind at 1 2. simpl.
  destruct (tiles_renderTiles E (req w) (tree x)) as [e|t]; [done|].
  unfold set_tree, update, deref, store, ret, bind. simpl. by rewrite Hl.
Qed.

(** A reference that the stages are handed without an object behind it
    makes them raise, whatever the collaborators. *)
Lemma MergePanels_dangling (l : loc) encoding (w : world E) :
  get_flag flag_enabled (req w) = true →
  heap w !! l = None →
  MergePanels.transformIterable E (Serializer l) encoding w =
    Raises (Exc ReferenceError "no such object") w.
Proof.
  intros He Hl.
  unfold MergePanels.transformIterable, request_get, get_request, deref, ret, bind.
  simpl. rewrite He. simpl. by rewrite Hl.
Qed.

Lemma IncludeTiles_dangling (l : loc) encoding (w : world E) :
  get_flag flag_enabled (req w) = true →
  heap w !! l = None →
  IncludeTiles.transformIterable E (Serializer l) encoding w =
    Raises (Exc ReferenceError "no such object") w.
Proof.
  intros He Hl.
  unfold IncludeTiles.transformIterable, request_get, get_request, deref, ret, bind.
  simpl. rewrite He. simpl. by rewrite Hl.
Qed.

(** X9: A successful merge returns the very object it was handed, with the
    merged tree in place of the page's; it sets [merged] and no other
    flag; the serializer becomes [html.tostring] when the merged tree has
    a doctype without ["XHTML"] in it and is kept otherwise; the other
    objects, the headers and the log are as they were. *)
Theorem MergePanels_success (l : loc) (x : XMLSerializer (Tree E)) (t : Tree E)
    encoding (w : world E) :
  get_flag flag_enabled (req w) = true →
  heap w !! l = Some x →
  panel_merge E (req w) (tree x) = inr (Some t) →
  ∃ w' x',
    MergePanels.transformIterable E (Serializer l) encoding w
      = Returns (Some (Parsed l)) w' ∧
    heap w' !! l = Some x' ∧ tree x' = t ∧
    xs_pretty_print x' = xs_pretty_print x ∧ xs_encoding x' = xs_encoding x ∧
    (doctype E t ≠ "" → Py.str_contains "XHTML" (doctype E t) = false →
       serializer x' = html_tostring) ∧
    (doctype E t = "" ∨ Py.str_contains "XHTML" (doctype E t) = true →
       serializer x' = serializer x) ∧
    (∀ l', l' ≠ l → heap w' !! l' = heap w !! l') ∧
    other (req w') = <[flag_merged := true]> (other (req w)) ∧
    environ (req w') = environ (req w) ∧
    response_headers (req w') = response_headers (req w) ∧
    log w' = log w.
Proof.
  intros He Hl Hm. rewrite (MergePanels_run l x) by done. rewrite Hm.
  eexists _, _. split; [done|]. simpl. rewrite lookup_insert_eq.
  split; [done|]. simpl. repeat split.
  - intros Hd Hx. unfold MergePanels.not_xhtml.
    by rewrite bool_decide_false, Hx.
  - intros [Hd|Hx]; unfold MergePanels.not_xhtml.
    + by rewrite bool_decide_true.
    + rewrite Hx. by rewrite andb_false_r.
  - intros l' Hne. by rewrite lookup_insert_ne.
Qed.

(** X10: tile inclusion returns the very object it was handed, holding
    the tree that the collaborator rendered; it needs [enabled] and not
    [merged]; the serializer and the options of the object, and the other
    objects, are as they were. *)
Theorem IncludeTiles_success (l : loc) (x : XMLSerializer (Tree E)) (t : Tree E)
    encoding (w : world E) :
  get_flag flag_enabled (req w) = true →
  heap w !! l = Some x →
  tiles_renderTiles E (req w) (tree x) = inr t →
  ∃ w' x',
    IncludeTiles.transformIterable E (Serializer l) encoding w
      = Returns (Some (Parsed l)) w' ∧
    heap w' !! l = Some x' ∧ tree x' = t ∧ serializer x' = serializer x ∧
    xs_pretty_print x' = xs_pretty_print x ∧ xs_encoding x' = xs_encoding x ∧
    (∀ l', l' ≠ l → heap w' !! l' = heap w !! l').
Proof.
  intros He Hl Ht. rewrite (IncludeTiles_run l x) by done. rewrite Ht.
  eexists _, _. split; [done|]. simpl. rewrite lookup_insert_eq.
  repeat split. intros l' Hne. by rewrite lookup_insert_ne.
Qed.

(** X11: A collaborator that raises is not caught by the stage that
    called it.  The Panel-Merge stage has then made none of its own
    writes: [merged] has the value it had and the object has the
    serializer it had.  The Edge-Directive stage, whose collaborator is
    handed neither the request nor an object, leaves the world as it
    was: [X-Esi] is not set. *)
Theorem collaborator_failure_is_raised (l : loc) (x : XMLSerializer (Tree E))
    encoding (w : world E) (e : exc) :
  (get_flag flag_enabled (req w) = true → heap w !! l = Some x →
   panel_merge E (req w) (tree x) = inl e →
   ∃ w', MergePanels.transformIterable E (Serializer l) encoding w = Raises e w' ∧
         get_flag flag_merged (req w') = get_flag flag_merged (req w) ∧
         serializer <$> heap w' !! l = Some (serializer x)) ∧
  (get_flag flag_enabled (req w) = true → heap w !! l = Some x →
   tiles_renderTiles E (req w) (tree x) = inl e →
   ∃ w', IncludeTiles.transformIterable E (Serializer l) encoding w = Raises e w') ∧
  (esi_on w = true →
   (∀ b, esi_substituteESILinks E (Iter (Chunks [ItemBytes b])) = inl e →
      ESIRender.transformBytes E b encoding w = Raises e w) ∧
   (∀ t, esi_substituteESILinks E
           (Iter (Chunks [ItemBytes (encode_ignore encoding t)])) = inl e →
      ESIRender.transformUnicode E t encoding w = Raises e w) ∧
   (∀ it s, py_str it w = Returns s w →
      esi_substituteESILinks E (Text s) = inl e →
      ESIRender.transformIterable E it encoding w = Raises e w)).
Proof.
  split; [|split; [|intros Hon; split; [|split]]].
  - intros He Hl Hm. rewrite (MergePanels_run l x) by done. rewrite Hm.
    exists w. split; [done|]. split; [done|]. by rewrite Hl.
  - intros He Hl Ht. rewrite (IncludeTiles_run l x) by done. rewrite Ht.
    by exists w.
  - intros b Hs. rewrite ESIRender_transformBytes_on by done. by rewrite Hs.
  - intros t Hs. rewrite ESIRender_transformUnicode_on by done. by rewrite Hs.
  - intros it s Hstr Hs.
    rewrite (ESIRender_transformIterable_on E it encoding w s) by done.
    by rewrite Hs.
Qed.


(** X13: the two stages leave alone whatever is not an [XMLSerializer]: bytes,
    text and plain iterables of chunks, whatever the flags say. *)
Theorem gated_stages_need_a_serializer encoding (w : world E) :
  (∀ b, MergePanels.transformBytes E b encoding w = Returns None w) ∧
  (∀ t, MergePanels.transformUnicode E t encoding w = Returns None w) ∧
  (∀ items, MergePanels.transformIterable E (Chunks items) encoding w = Returns None w) ∧
  (∀ b, IncludeTiles.transformBytes E b encoding w = Returns None w) ∧
  (∀ t, IncludeTiles.transformUnicode E t encoding w = Returns None w) ∧
  (∀ items, IncludeTiles.transformIterable E (Chunks items) encoding w = Returns None w).
Proof.
  repeat split; intros x;
    first [ apply MergePanels_not_serializer | apply IncludeTiles_not_serializer ].
Qed.

End Composition.

(** ** More on the normalization *)

Section NormalizeMore.
Import ParseXML.

Lemma contains_weaken (p q s : bytes) :
  (∀ x, Py.startswith q x = true → Py.startswith p x = true) →
  Py.contains p s = false → Py.contains q s = false.
Proof.
  intros Hpq. induction s as [|c s IH]; simpl.
  - rewrite !orb_false_r. intros Hp.
    destruct (Py.startswith q []) eqn:Hq; [|done].
    apply Hpq in Hq. congruence.
  - intros Hp. apply orb_false_iff in Hp as [Hp1 Hp2].
    rewrite IH by done. rewrite orb_false_r.
    destruct (Py.startswith q (c :: s)) eqn:Hq; [|done].
    apply Hpq in Hq. congruence.
Qed.

Lemma collapsed_length s t : collapsed s t → length t ≤ length s.
Proof.
  induction 1; simpl; rewrite ?length_app; simpl; try lia.
Qed.

Lemma normalize_bytes_eq (chunk : bytes) :
  normalize (ItemBytes chunk) = inr (Py.re_sub CR LF (Py.re_sub CRLF LF chunk)).
Proof. done. Qed.

Lemma normalize_without_CR (chunk : bytes) :
  Py.contains CR chunk = false → normalize (ItemBytes chunk) = inr chunk.
Proof.
  intros Hc. rewrite normalize_bytes_eq.
  rewrite (re_sub_id CRLF) by
    (first [done | by apply (contains_weaken CR), Hc; apply startswith_CRLF_CR]).
  by rewrite re_sub_id.
Qed.

(** X5: normalizing twice is normalizing once; a chunk without encoded
    carriage return is returned as it is; and no chunk gets longer. *)
Theorem normalize_idempotent (chunk : bytes) :
  bind_exc (normalize (ItemBytes chunk)) (λ out, normalize (ItemBytes out))
    = normalize (ItemBytes chunk) ∧
  (Py.contains CR chunk = false → normalize (ItemBytes chunk) = inr chunk) ∧
  (∀ out, normalize (ItemBytes chunk) = inr out → length out ≤ length chunk).
Proof.
  split; [|split].
  - rewrite normalize_bytes_eq. simpl bind_exc.
    rewrite normalize_without_CR; [done|].
    apply re_sub_no_occurrence; [done|apply LF_not_in_CR].
  - apply normalize_without_CR.
  - intros out Hout. rewrite normalize_bytes_eq in Hout. injection Hout as <-.
    apply collapsed_length, two_passes_collapsed.
Qed.

(** Occurrences of a block are not touched by the normalization when the
    block has no byte in common with the encoded carriage return and the
    linefeed. *)
Lemma contains_skip (a c : byte) (p s : bytes) :
  a ≠ c → Py.contains (a :: p) (c :: s) = Py.contains (a :: p) s.
Proof.
  intros Hne. change (Py.contains (a :: p) (c :: s))
    with (Py.startswith (a :: p) (c :: s) || Py.contains (a :: p) s).
  by rewrite startswith_cons_ne.
Qed.

Lemma contains_skip_app (a : byte) (p u s : bytes) :
  a ∉ u → Py.contains (a :: p) (u ++ s) = Py.contains (a :: p) s.
Proof.
  induction u as [|c u IH]; intros Hu; [done|].
  apply not_elem_of_cons in Hu as [Hne Hu].
  simpl app. rewrite contains_skip by done. by apply IH.
Qed.

Lemma collapsed_startswith (m s t : bytes) :
  Forall (λ c, c ∉ CR ++ LF) m →
  collapsed s t → Py.startswith m s = Py.startswith m t.
Proof.
  intros Hm Hc. revert m Hm.
  induction Hc as [|s t _ _|s t _ _ _|c s t _ _ IH]; intros m Hm.
  - done.
  - destruct m as [|a m]; [done|].
    apply Forall_cons in Hm as [Ha _].
    rewrite CR_cons. simpl app.
    rewrite !startswith_cons_ne; [done| |]; intros ->; apply Ha;
      apply (bool_decide_unpack _); by vm_compute.
  - destruct m as [|a m]; [done|].
    apply Forall_cons in Hm as [Ha _].
    rewrite CR_cons. simpl app.
    rewrite !startswith_cons_ne; [done| |]; intros ->; apply Ha;
      apply (bool_decide_unpack _); by vm_compute.
  - destruct m as [|a m]; [done|].
    apply Forall_cons in Hm as [_ Hm].
    rewrite !startswith_cons. by rewrite (IH m Hm).
Qed.

Lemma collapsed_contains (m s t : bytes) :
  m ≠ [] → Forall (λ c, c ∉ CR ++ LF) m →
  collapsed s t → Py.contains m s = Py.contains m t.
Proof.
  intros Hne Hm Hc. destruct m as [|a m]; [done|].
  assert (a ∉ CR ++ LF) as Ha by (by apply Forall_cons in Hm as [? _]).
  induction Hc as [|s t _ IH|s t HLF _ IH|c s t HCR Hc IH].
  - done.
  - rewrite (app_assoc CR LF s).
    rewrite !contains_skip_app; [done| |done].
    intros Hin. apply Ha, elem_of_app. by right.
  - rewrite !contains_skip_app; [done| |].
    + intros Hin. apply Ha, elem_of_app. by right.
    + intros Hin. apply Ha, elem_of_app. by left.
  - change (Py.contains (a :: m) (c :: s))
      with (Py.startswith (a :: m) (c :: s) || Py.contains (a :: m) s).
    change (Py.contains (a :: m) (c :: t))
      with (Py.startswith (a :: m) (c :: t) || Py.contains (a :: m) t).
    rewrite IH. f_equal.
    apply collapsed_startswith; [done|]. by constructor.
Qed.

(** X6: the normalization neither makes nor breaks the marker of a CDATA
    section: the test of the Parse stage on a normalized chunk is the test
    on the chunk as it came. *)
Theorem normalize_keeps_CDATA (chunk : bytes) :
  ∃ out,
    normalize (ItemBytes chunk) = inr out ∧
    Py.contains CDATA out = Py.contains CDATA chunk.
Proof.
  eexists. split; [apply normalize_bytes_eq|].
  symmetry. apply collapsed_contains; [done| |apply two_passes_collapsed].
  apply (bool_decide_unpack _). by vm_compute.
Qed.

End NormalizeMore.

(** ** More on the Parse stage *)

Section ParseMore.
Context (E : Env).
Import ParseXML.

Lemma parse_guards_dec (w : world E) : Decision (parse_guards_pass w).
Proof. unfold parse_guards_pass. apply _. Defined.

(** The iteration over the result either gives its chunks or, on a
    reference without object, raises; the world is as it was. *)
Lemma iterate_cases result (w : world E) :
  (∃ items, iterate result w = Returns items w) ∨
  iterate result w = Raises (Exc ReferenceError "no such object") w.
Proof.
  destruct result as [items|l]; simpl.
  - left. by exists items.
  - unfold bind, deref, ret. destruct (heap w !! l) as [x|]; [left|by right].
    by eexists.
Qed.

Lemma ParseXML_guarded_dangling result encoding (w : world E) :
  parse_guards_pass w →
  iterate result w = Raises (Exc ReferenceError "no such object") w →
  transformIterable E result encoding w
    = Raises (Exc ReferenceError "no such object") w.
Proof.
  intros (Hd & Hct & Hce) Hit.
  unfold transformIterable.
  unfold bind at 1. unfold request_get at 1. unfold bind at 1. simpl.
  rewrite Hd.
  unfold bind at 1. unfold response_getHeader at 1. unfold bind at 1. simpl.
  rewrite Hct.
  unfold bind at 1. unfold response_getHeader at 1. unfold bind at 1. simpl.
  rewrite Hce.
  unfold try_except. by rewrite (bind_Raises _ _ _ _ _ Hit).
Qed.

(** The stage sees the chunks through [parse_chunks] only. *)
Lemma ParseXML_chunks_congruence items items' encoding (w : world E) :
  parse_chunks E items encoding = parse_chunks E items' encoding →
  transformIterable E (Chunks items) encoding w
  = transformIterable E (Chunks items') encoding w.
Proof.
  intros Heq. destruct (parse_guards_dec w) as [Hg|Hg].
  - rewrite (ParseXML_guarded E (Chunks items) encoding w items Hg) by done.
    rewrite (ParseXML_guarded E (Chunks items') encoding w items' Hg) by done.
    by rewrite Heq.
  - by rewrite !ParseXML_guard_stops.
Qed.

Lemma filter_truthy_idemp (items : list item) :
  filter (λ i, truthy i = true) (filter (λ i, truthy i = true) items)
  = filter (λ i, truthy i = true) items.
Proof.
  induction items as [|i items IH]; [done|].
  rewrite filter_cons. destruct (decide (truthy i = true)) as [Hi|Hi]; [|done].
  rewrite filter_cons, decide_True by done. by rewrite IH.
Qed.

(** X3: chunks that are false (empty bytes, empty text, a false object) take
    no part: the outcome is that of the iterable without them.  A false
    object is skipped before its type could raise. *)
Theorem ParseXML_skips_false_chunks items encoding (w : world E) :
  transformIterable E (Chunks items) encoding w
  = transformIterable E (Chunks (filter (λ i, truthy i = true) items)) encoding w.
Proof.
  apply ParseXML_chunks_congruence. unfold parse_chunks.
  by rewrite filter_truthy_idemp.
Qed.

Lemma utf8_char_nonempty c bs : utf8_char c = Some bs → bs ≠ [].
Proof.
  unfold utf8_char. repeat case_match; by intros [= <-].
Qed.

Lemma encode_strict_cons enc c t bs :
  encode_strict enc (c :: t) = Some bs →
  ∃ b1 b2, encode_char enc c = Some b1 ∧ encode_strict enc t = Some b2 ∧
           bs = b1 ++ b2.
Proof.
  unfold encode_strict. simpl.
  destruct (encode_char enc c) as [b1|]; [|done]. simpl.
  destruct (mapM (encode_char enc) t) as [bss|]; [|done]. simpl.
  intros [= <-]. by eexists _, _.
Qed.

(** X4: A text result is parsed as its UTF-8 bytes are, whatever the encoding
    that the chain names: [safe_bytes] is called without it. *)
Theorem ParseXML_text_is_parsed_as_utf8 (t : text) (b : bytes) encoding (w : world E) :
  encode_strict utf8 t = Some b →
  transformUnicode E t encoding w = transformBytes E b encoding w.
Proof.
  intros Hb. unfold transformUnicode, transformBytes.
  apply ParseXML_chunks_congruence. unfold parse_chunks. f_equal.
  destruct t as [|c t].
  - by injection Hb as <-.
  - destruct (encode_strict_cons _ _ _ _ Hb) as (b1 & b2 & Hc & _ & ->).
    apply utf8_char_nonempty in Hc.
    destruct b1 as [|c1 b1]; [done|].
    rewrite !filter_cons, !decide_True by done. rewrite !filter_nil.
    simpl map_exc. unfold normalize at 1. simpl safe_bytes. by rewrite Hb.
Qed.

(** When the stage returns nothing, the request and the objects are as
    they were. *)
Lemma ParseXML_None_world result encoding (w w1 : world E) :
  transformIterable E result encoding w = Returns None w1 →
  req w1 = req w ∧ heap w1 = heap w.
Proof.
  intros Hrun. destruct (parse_guards_dec w) as [Hg|Hg].
  2:{ rewrite ParseXML_guard_stops in Hrun by done. by injection Hrun as <-. }
  destruct (iterate_cases result w) as [[items Hit]|Hit].
  2:{ by rewrite ParseXML_guarded_dangling in Hrun. }
  rewrite (ParseXML_guarded E result encoding w items Hg Hit) in Hrun.
  destruct (parse_chunks E items encoding) as [e|[chunks x]]; [|done].
  destruct (except_matches _ e); [|done]. by injection Hrun as <-.
Qed.

(** X7: A Parse stage that returns nothing, be it stopped by a guard or by a
    failure it caught, leaves [enabled] as it was; if that was false, the
    Panel-Merge and the Tile-Inclusion stage do nothing after it, whatever
    they are handed. *)
Theorem ParseXML_noop_keeps_composition_off result encoding (w w1 : world E) :
  get_flag flag_enabled (req w) = false →
  transformIterable E result encoding w = Returns None w1 →
  get_flag flag_enabled (req w1) = false ∧
  (∀ it enc, MergePanels.transformIterable E it enc w1 = Returns None w1) ∧
  (∀ it enc, IncludeTiles.transformIterable E it enc w1 = Returns None w1).
Proof.
  intros He Hrun. destruct (ParseXML_None_world _ _ _ _ Hrun) as [Hreq _].
  assert (get_flag flag_enabled (req w1) = false) as He1 by (by rewrite Hreq).
  split; [done|]. split; intros it enc.
  - by apply MergePanels_not_enabled.
  - by apply IncludeTiles_not_enabled.
Qed.


End ParseMore.

(** ** The edge header *)

Section EdgeHeader.

Lemma lower_ascii_inv (c : ascii) :
  (Py.lower_ascii c = "t"%char → c = "t"%char ∨ c = "T"%char) ∧
  (Py.lower_ascii c = "r"%char → c = "r"%char ∨ c = "R"%char) ∧
  (Py.lower_ascii c = "u"%char → c = "u"%char ∨ c = "U"%char) ∧
  (Py.lower_ascii c = "e"%char → c = "e"%char ∨ c = "E"%char).
Proof.
  destruct c as [[] [] [] [] [] [] [] []]; vm_compute;
    repeat split; intros H; first [discriminate H | by left | by right].
Qed.

(** [h.lower() == "true"] holds of the sixteen spellings of ["true"] and
    of nothing else. *)
Lemma lower_true_iff (h : string) : Py.lower h = "true" ↔ h ∈ true_spellings.
Proof.
  split.
  - destruct h as [|a [|b [|c [|d [|? ?]]]]]; simpl; try done.
    intros [= Ha Hb Hc Hd].
    apply (proj1 (lower_ascii_inv a)) in Ha.
    apply (proj1 (proj2 (lower_ascii_inv b))) in Hb.
    apply (proj1 (proj2 (proj2 (lower_ascii_inv c)))) in Hc.
    apply (proj2 (proj2 (proj2 (lower_ascii_inv d)))) in Hd.
    destruct Ha as [-> | ->], Hb as [-> | ->], Hc as [-> | ->], Hd as [-> | ->];
      apply (bool_decide_unpack _); by vm_compute.
  - intros H. unfold true_spellings in H.
    repeat (apply elem_of_cons in H as [-> | H]; [reflexivity|]).
    by apply elem_of_nil in H.
Qed.

Context (E : Env).

(** X14: the Edge-Directive stage resolves directives when the inbound edge
    header is one of the sixteen spellings of ["true"]; with any other
    value, or without the header, every entry point returns nothing and
    leaves the world as it was. *)
Theorem edge_header_spellings encoding (w : world E) :
  ((∃ h, environ (req w) !! ESI_HEADER E = Some h ∧ h ∈ true_spellings) →
     ESIRender.esi_off E w = Returns false w) ∧
  (¬ (∃ h, environ (req w) !! ESI_HEADER E = Some h ∧ h ∈ true_spellings) →
     ESIRender.esi_off E w = Returns true w ∧
     (∀ b, ESIRender.transformBytes E b encoding w = Returns None w) ∧
     (∀ t, ESIRender.transformUnicode E t encoding w = Returns None w) ∧
     (∀ it, ESIRender.transformIterable E it encoding w = Returns None w)).
Proof.
  split.
  - intros (h & Hh & Hin). rewrite esi_off_run. unfold esi_on.
    rewrite Hh. simpl. apply lower_true_iff in Hin.
    by rewrite bool_decide_true.
  - intros Hnot.
    assert (esi_on w = false) as Hoff.
    { unfold esi_on. apply bool_decide_false. intros Hl.
      destruct (environ (req w) !! ESI_HEADER E) as [h|] eqn:Hh; simpl in Hl.
      - apply Hnot. exists h. split; [done|]. by apply lower_true_iff.
      - discriminate Hl. }
    split; [by rewrite esi_off_run, Hoff|].
    repeat split; intros x.
    + by apply (ESIRender_off E (Bytes x) encoding).
    + by apply (ESIRender_off E (Text x) encoding).
    + by apply (ESIRender_off E (Iter x) encoding).
Qed.

Lemma ESIRender_bytes_text_final encoding (w : world E) :
  (∀ b, final (ESIRender.transformBytes E b encoding w) = w) ∧
  (∀ t, final (ESIRender.transformUnicode E t encoding w) = w).
Proof.
  split; intros x; destruct (esi_on w) eqn:Hon.
  - rewrite ESIRender_transformBytes_on by done.
    by destruct (esi_substituteESILinks _ _).
  - by rewrite (ESIRender_off E (Bytes x) encoding w Hon : ESIRender.transformBytes _ _ _ _ = _).
  - rewrite ESIRender_transformUnicode_on by done.
    by destruct (esi_substituteESILinks _ _).
  - by rewrite (ESIRender_off E (Text x) encoding w Hon : ESIRender.transformUnicode _ _ _ _ = _).
Qed.

(** X15: only the iterable entry point writes: on bytes and on text the stage
    leaves the world as it was, whether it returns or raises, so [X-Esi]
    is not set even when the substitution changed the page; on an
    iterable it is set as soon as the substitution changed the string. *)
Theorem ESIRender_bytes_and_text_write_nothing encoding (w : world E) :
  (∀ b, final (ESIRender.transformBytes E b encoding w) = w) ∧
  (∀ t, final (ESIRender.transformUnicode E t encoding w) = w) ∧
  (∀ it s r, esi_on w = true → py_str it w = Returns s w →
     esi_substituteESILinks E (Text s) = inr r → r ≠ Text s →
     final (ESIRender.transformIterable E it encoding w)
     = World (set_response_header "X-Esi" "1" (req w)) (heap w) (log w)).
Proof.
  destruct (ESIRender_bytes_text_final encoding w) as [Hb Ht].
  split; [done|]. split; [done|].
  intros it s r Hon Hs Hr Hne.
  rewrite (ESIRender_transformIterable_on E it encoding w s) by done.
  rewrite Hr. simpl. by rewrite bool_decide_true.
Qed.

End EdgeHeader.

(** ** The bypass stage *)

Section BypassMore.
Context (E : Env).

Lemma DisableParsing_run result encoding (w : world E) :
  Chain.invoke E Chain.disableparsing result encoding w
  = Returns None (World (set_flag flag_disabled true (req w)) (heap w) (log w)).
Proof. by destruct result. Qed.

(** X1: the bypass stage needs nothing of the request: from any world, and
    through any entry point, it returns nothing; after it the Parse stage
    returns nothing on every input and leaves the world as the bypass
    stage left it; and a second run of the bypass stage changes nothing. *)
Theorem DisableParsing_stops_ParseXML encoding (w : world E) :
  let w1 := World (set_flag flag_disabled true (req w)) (heap w) (log w) in
  (∀ b, DisableParsing.transformBytes E b encoding w = Returns None w1) ∧
  (∀ t, DisableParsing.transformUnicode E t encoding w = Returns None w1) ∧
  (∀ it, DisableParsing.transformIterable E it encoding w = Returns None w1) ∧
  (∀ it enc, ParseXML.transformIterable E it enc w1 = Returns None w1) ∧
  (∀ it enc, DisableParsing.transformIterable E it enc w1 = Returns None w1).
Proof.
  intros w1. split; [done|]. split; [done|]. split; [done|]. split.
  - intros it enc. apply ParseXML_disabled.
    unfold w1, get_flag, set_flag. simpl. by rewrite lookup_insert_eq.
  - intros it enc.
    unfold DisableParsing.transformIterable, request_set, modify_request, ret, bind.
    simpl. unfold w1, set_flag. simpl. by rewrite insert_insert_eq.
Qed.

(** X2: the bypass lasts: once [disabled] is true, it is true after any entry
    point of any stage, returned or raised, and the Parse stage returns
    nothing then. *)
Theorem bypass_is_permanent (s : Chain.stage) encoding (w : world E) :
  get_flag flag_disabled (req w) = true →
  ∀ w1,
    ((∃ b, w1 = final (Chain.transformBytes E s b encoding w)) ∨
     (∃ t, w1 = final (Chain.transformUnicode E s t encoding w)) ∨
     (∃ it, w1 = final (Chain.transformIterable E s it encoding w))) →
    get_flag flag_disabled (req w1) = true ∧
    ∀ it enc, ParseXML.transformIterable E it enc w1 = Returns None w1.
Proof.
  intros Hd w1 Hw1.
  destruct (monotone_entry_points E s encoding) as (Hb & Ht & Hi).
  assert (get_flag flag_disabled (req w1) = true) as Hd1.
  { destruct Hw1 as [[b ->]|[[t ->]|[it ->]]];
      (eapply flags_grow_true; [|exact Hd]);
      [apply Hb|apply Ht|apply Hi]. }
  split; [done|]. intros it enc. by apply ParseXML_disabled.
Qed.

End BypassMore.

(** ** What a stage writes *)

Section Footprint.
Context (E : Env).

Lemma py_str_cases result (w : world E) :
  (∃ s, py_str result w = Returns s w) ∨
  py_str result w = Raises (Exc ReferenceError "no such object") w.
Proof.
  destruct result as [items|l]; simpl.
  - left. by eexists.
  - unfold bind, deref, ret. destruct (heap w !! l) as [x|]; [left|by right].
    by eexists.
Qed.

Lemma footprint_ParseXML it encoding (w : world E) :
  footprint Chain.parsexml (Iter it) w
    (final (ParseXML.transformIterable E it encoding w)).
Proof.
  simpl. destruct (parse_guards_dec E w) as [Hg|Hg].
  2:{ rewrite ParseXML_guard_stops by done. split; [done|]. left. auto. }
  destruct (iterate_cases E it w) as [[items Hit]|Hit].
  2:{ rewrite ParseXML_guarded_dangling by done. split; [done|]. left. auto. }
  rewrite (ParseXML_guarded E it encoding w items Hg Hit).
  destruct (parse_chunks E items encoding) as [e|[chunks x]].
  - destruct (except_matches _ e); simpl; (split; [done|]); left;
      split; [done| |done|]; (split; [done|]); [right; by exists e|by left].
  - simpl. split; [done|]. right. eexists _, _.
    split; [apply not_elem_of_dom, is_fresh|done].
Qed.

Lemma footprint_MergePanels it encoding (w : world E) :
  footprint Chain.mergepanels (Iter it) w
    (final (MergePanels.transformIterable E it encoding w)).
Proof.
  simpl. destruct it as [items|l].
  { rewrite MergePanels_not_serializer. simpl. auto 10. }
  destruct (get_flag flag_enabled (req w)) eqn:He.
  2:{ rewrite MergePanels_not_enabled by done. simpl. auto 10. }
  destruct (heap w !! l) as [x|] eqn:Hl.
  2:{ rewrite MergePanels_dangling by done. simpl. auto 10. }
  rewrite (MergePanels_run E l x) by done.
  destruct (panel_merge E (req w) (tree x)) as [e|[t|]]; simpl; [auto 10| |auto 10].
  split; [done|]. split; [done|]. right. by eexists _, _, _, _.
Qed.

Lemma footprint_IncludeTiles it encoding (w : world E) :
  footprint Chain.includetiles (Iter it) w
    (final (IncludeTiles.transformIterable E it encoding w)).
Proof.
  simpl. destruct it as [items|l].
  { rewrite IncludeTiles_not_serializer. simpl. auto 10. }
  destruct (get_flag flag_enabled (req w)) eqn:He.
  2:{ rewrite IncludeTiles_not_enabled by done. simpl. auto 10. }
  destruct (heap w !! l) as [x|] eqn:Hl.
  2:{ rewrite IncludeTiles_dangling by done. simpl. auto 10. }
  rewrite (IncludeTiles_run E l x) by done.
  destruct (tiles_renderTiles E (req w) (tree x)) as [e|t]; simpl; [auto 10|].
  split; [done|]. split; [done|]. split; [done|]. right. by eexists _, _, _.
Qed.

Lemma footprint_ESIRender it encoding (w : world E) :
  footprint Chain.esirender (Iter it) w
    (final (ESIRender.transformIterable E it encoding w)).
Proof.
  assert (footprint Chain.esirender (Iter it) w w) as Hsame.
  { simpl. repeat split. by left. }
  destruct (esi_on w) eqn:Hon.
  2:{ by rewrite (ESIRender_off E (Iter it) encoding w Hon
                    : ESIRender.transformIterable _ _ _ _ = _). }
  destruct (py_str_cases it w) as [[s Hs]|Hs].
  - rewrite (ESIRender_transformIterable_on E it encoding w s) by done.
    destruct (esi_substituteESILinks E (Text s)) as [e|t]; [done|].
    simpl final. destruct (bool_decide (t ≠ Text s)); [|done].
    simpl. repeat split. right. split; [by exists it|done].
  - unfold ESIRender.transformIterable.
    unfold bind at 1. rewrite esi_off_run, Hon. simpl.
    rewrite (bind_Raises _ _ _ _ _ Hs). exact Hsame.
Qed.

Lemma footprint_same (s : Chain.stage) input (w : world E) :
  s ≠ Chain.disableparsing → footprint s input w w.
Proof. destruct s; simpl; intros Hs; [done| | | |]; auto 10. Qed.

(** X16: each stage writes what is its own to write, through whichever
    entry point and whether it returns or raises.  Of the flags, the
    response headers, the serializer objects and the log: the Bypass stage
    writes the flag [disabled]; the Parse stage the flag [enabled]
    together with one new object, or one entry of the log; the Panel-Merge
    stage the flag [merged] together with the object that is its input;
    the Tile-Inclusion stage the tree of the object that is its input; the
    Edge-Directive stage, on an iterable, the response header [X-Esi]. *)
Theorem stage_footprint (s : Chain.stage) encoding (w : world E) :
  (∀ b, footprint s (Bytes b) w (final (Chain.transformBytes E s b encoding w))) ∧
  (∀ t, footprint s (Text t) w (final (Chain.transformUnicode E s t encoding w))) ∧
  (∀ it, footprint s (Iter it) w (final (Chain.transformIterable E s it encoding w))).
Proof.
  destruct (ESIRender_bytes_text_final E encoding w) as [Hb Ht].
  destruct s; (split; [|split]); intros x; simpl Chain.transformBytes;
    simpl Chain.transformUnicode; simpl Chain.transformIterable.
  - done.
  - done.
  - done.
  - unfold ParseXML.transformBytes.
    apply (footprint_ParseXML (Chunks [ItemBytes x])).
  - unfold ParseXML.transformUnicode.
    apply (footprint_ParseXML (Chunks [ItemText x])).
  - apply footprint_ParseXML.
  - by apply footprint_same.
  - by apply footprint_same.
  - apply footprint_MergePanels.
  - by apply footprint_same.
  - by apply footprint_same.
  - apply footprint_IncludeTiles.
  - rewrite Hb. by apply footprint_same.
  - rewrite Ht. by apply footprint_same.
  - apply footprint_ESIRender.
Qed.

(** The input matters: a Panel-Merge stage that wrote to another object
    than the one it was handed would not have this footprint. *)
Example footprint_is_about_the_input :
  ¬ footprint Chain.mergepanels (Parsed 2) layout_world
      (World (set_flag flag_merged true (req layout_world))
         (<[1%positive := layout_page]> (heap layout_world)) (log layout_world)).
Proof.
  simpl. intros (_ & _ & [[Ho _] | (l & x & t & f & Hin & Hl & _ & Hh)]).
  - apply (f_equal (λ m, m !! flag_merged)) in Ho. by vm_compute in Ho.
  - injection Hin as <-.
    apply (f_equal (λ m, tree <$> m !! 1%positive)) in Hh.
    rewrite lookup_insert_eq, lookup_insert_ne in Hh by done.
    by vm_compute in Hh.
Qed.

End Footprint.

(** ** The further properties on concrete requests *)

Section ConcreteMore.

Lemma MergePanels_success_witness :
  ∃ w' x',
    MergePanels.transformIterable Demo.env (Serializer 2) utf8 layout_world
      = Returns (Some (Parsed 2)) w' ∧
    heap w' !! 2%positive = Some x' ∧
    tree x' = Py.b "<!DOCTYPE html><html><p data-layout>a<tile/></p></html>" ∧
    serializer x' = html_tostring ∧
    heap w' !! 1%positive = Some Demo.page ∧
    get_flag flag_merged (req w') = true.
Proof.
  destruct (MergePanels_success Demo.env 2 layout_page
              (Py.b "<!DOCTYPE html><html><p data-layout>a<tile/></p></html>")
              utf8 layout_world eq_refl eq_refl eq_refl)
    as (w' & x' & Hrun & Hx' & Ht & _ & _ & Hhtml & _ & Hother & Hflags & _).
  exists w', x'. split; [exact Hrun|]. split; [exact Hx'|]. split; [exact Ht|].
  split; [apply Hhtml; [discriminate|reflexivity]|].
  split; [rewrite Hother by discriminate; reflexivity|].
  unfold get_flag. rewrite Hflags. reflexivity.
Defined.

Lemma IncludeTiles_success_witness :
  get_flag flag_merged (req layout_world) = false ∧
  ∃ w' x',
    IncludeTiles.transformIterable Demo.env (Serializer 2) utf8 layout_world
      = Returns (Some (Parsed 2)) w' ∧
    heap w' !! 2%positive = Some x' ∧
    tree x' = Py.b "<p data-layout>a<p>tile</p></p>" ∧
    serializer x' = etree_tostring ∧
    heap w' !! 1%positive = Some Demo.page.
Proof.
  split; [reflexivity|].
  destruct (IncludeTiles_success Demo.env 2 layout_page
              (Py.b "<p data-layout>a<p>tile</p></p>")
              utf8 layout_world eq_refl eq_refl eq_refl)
    as (w' & x' & Hrun & Hx' & Ht & Hs & _ & _ & Hother).
  exists w', x'. split; [exact Hrun|]. split; [exact Hx'|]. split; [exact Ht|].
  split; [exact Hs|]. rewrite Hother by discriminate. reflexivity.
Defined.

Lemma collaborator_failure_witness :
  let w := Faulty.parsed_world in
  (∃ w', MergePanels.transformIterable Faulty.env (Serializer 1) utf8 w
           = Raises (Exc RuntimeError "layout unavailable") w' ∧
         get_flag flag_merged (req w') = get_flag flag_merged (req w) ∧
         serializer <$> heap w' !! 1%positive = Some (serializer Demo.page)) ∧
  (∃ w', IncludeTiles.transformIterable Faulty.env (Serializer 1) utf8 w
           = Raises (Exc RuntimeError "tile unavailable") w') ∧
  ESIRender.transformIterable Faulty.env (Serializer 1) utf8 w
    = Raises (Exc RuntimeError "include unavailable") w.
Proof.
  intros w.
  destruct (collaborator_failure_is_raised Faulty.env 1 Demo.page utf8 w
              (Exc RuntimeError "layout unavailable")) as (Hm & _ & _).
  destruct (collaborator_failure_is_raised Faulty.env 1 Demo.page utf8 w
              (Exc RuntimeError "tile unavailable")) as (_ & Ht & _).
  destruct (collaborator_failure_is_raised Faulty.env 1 Demo.page utf8 w
              (Exc RuntimeError "include unavailable")) as (_ & _ & He).
  split; [exact (Hm eq_refl eq_refl eq_refl)|].
  split; [exact (Ht eq_refl eq_refl eq_refl)|].
  destruct (He eq_refl) as (_ & _ & Hi).
  exact (Hi (Serializer 1) (Demo.text_of_bytes (tree Demo.page)) eq_refl eq_refl).
Defined.


Lemma normalize_idempotent_witness :
  let chunk := Py.b "<p>no carriage return here</p>" in
  ParseXML.normalize (ItemBytes chunk) = inr chunk.
Proof.
  intros chunk.
  apply (proj1 (proj2 (normalize_idempotent chunk))). reflexivity.
Defined.

(** The page [é] as text and as its two UTF-8 bytes, with a chain that
    names ASCII. *)
Lemma ParseXML_text_is_parsed_as_utf8_witness :
  let w := Demo.fresh_world [] Demo.html in
  ParseXML.transformUnicode Demo.env [0xE9%N] ascii_codec w
  = ParseXML.transformBytes Demo.env [xc3; xa9] ascii_codec w.
Proof.
  intros w.
  apply (ParseXML_text_is_parsed_as_utf8 Demo.env [0xE9%N] [xc3; xa9]).
  reflexivity.
Defined.

Lemma ParseXML_noop_witness :
  let w := Demo.fresh_world [] Demo.html in
  let w1 := World (req w) ∅ [Exc TypeError "expected string or bytes-like object"] in
  get_flag flag_enabled (req w1) = false ∧
  (∀ it enc, MergePanels.transformIterable Demo.env it enc w1 = Returns None w1) ∧
  (∀ it enc, IncludeTiles.transformIterable Demo.env it enc w1 = Returns None w1).
Proof.
  intros w w1.
  apply (ParseXML_noop_keeps_composition_off Demo.env (Chunks [ItemOther true])
           utf8 w w1); reflexivity.
Defined.


Lemma edge_header_spellings_witness :
  ESIRender.esi_off Demo.env (Demo.fresh_world [("X-ESI-Enabled", "tRUe")] Demo.html)
    = Returns false (Demo.fresh_world [("X-ESI-Enabled", "tRUe")] Demo.html) ∧
  (∀ b, ESIRender.transformBytes Demo.env b utf8
          (Demo.fresh_world [("X-ESI-Enabled", "true ")] Demo.html)
        = Returns None (Demo.fresh_world [("X-ESI-Enabled", "true ")] Demo.html)).
Proof.
  split.
  - apply (proj1 (edge_header_spellings Demo.env utf8
                    (Demo.fresh_world [("X-ESI-Enabled", "tRUe")] Demo.html))).
    exists "tRUe". split; [reflexivity|].
    apply (bool_decide_unpack _). vm_compute. exact I.
  - apply (proj2 (edge_header_spellings Demo.env utf8
                    (Demo.fresh_world [("X-ESI-Enabled", "true ")] Demo.html))).
    intros (h & Hh & Hin). vm_compute in Hh. injection Hh as <-.
    revert Hin. apply (bool_decide_unpack _). vm_compute. exact I.
Defined.

(** The same page through the three entry points, the edge header being
    ["True"]: the header [X-Esi] is set for the iterable only. *)
Lemma ESIRender_entry_points_witness :
  let w := Demo.fresh_world Demo.edge Demo.html in
  ESIRender.transformBytes Demo.env (Py.b "<p>*</p>") utf8 w
    = Returns (Some (Bytes (Py.b "<p>@</p>"))) w ∧
  final (ESIRender.transformIterable Demo.env
           (Chunks [ItemBytes (Py.b "<p>*</p>")]) utf8 w)
    = World (set_response_header "X-Esi" "1" (req w)) (heap w) (log w).
Proof.
  intros w.
  destruct (ESIRender_bytes_and_text_write_nothing Demo.env utf8 w)
    as (_ & _ & Hi).
  split; [reflexivity|].
  apply (Hi (Chunks [ItemBytes (Py.b "<p>*</p>")])
            (Demo.text_of_string "[b'<p>*</p>']")
            (Text (Demo.text_of_string "[b'<p>@</p>']")));
    [reflexivity|reflexivity|reflexivity|].
  intros H. discriminate H.
Defined.

Lemma bypass_is_permanent_witness :
  let w := Demo.bypassed_world in
  let w1 := final (ESIRender.transformIterable Demo.env
                     (Chunks [ItemBytes (Py.b "<p>*</p>")]) utf8 w) in
  response_headers (req w1) !! "X-Esi" = Some "1" ∧
  get_flag flag_disabled (req w1) = true ∧
  ∀ it enc, ParseXML.transformIterable Demo.env it enc w1 = Returns None w1.
Proof.
  intros w w1. split; [reflexivity|].
  apply (bypass_is_permanent Demo.env Chain.esirender utf8 w eq_refl w1).
  right. right. exists (Chunks [ItemBytes (Py.b "<p>*</p>")]). reflexivity.
Defined.

End ConcreteMore.
